(** * cwDnp3: DNP3 list generator — classification and mirroring

    A shallow embedding of the two iterations of the generator that the
    repository holds:

    - [V3_2]: the iteration that prints "Generador DNP3 CLI v3.2 (Regex
      Logic)", where the output direction of a point is decided by the
      regular expressions of the YAML configuration;
    - [V2_2]: the iteration that prints "Generador DNP3 CLI v2.2 (Path
      Fix)" (main.go), where the direction is decided by fixed substring
      tests.

    Go strings are byte strings: they are modelled as [string], a list of
    8-bit characters.  Package-level variables ([GlobalConfig], [ListAO],
    [ListAI], [ListDO], [ListDI]) and the output of the standard logger are
    the fields of an explicit process state that every function threads.

    The library functions are modelled as Go defines them
    ([strings.TrimSpace] with its Unicode white space, the constant
    extraction pattern of [processSigFile]).  Two things are interfaces:
    the regular expressions of the configuration, which are compiled and
    matched by an engine given as a class, and the files, which are given
    by what opening, scanning, creating and flushing them return. *)

From Stdlib Require Import String Ascii List Bool Arith Lia Permutation.
Import ListNotations.
Open Scope string_scope.
Open Scope list_scope.
Open Scope nat_scope.

Set Implicit Arguments.

(** ** The Go library functions the program calls *)

Module Go.

(** [error]: [None] is Go's [nil]. *)
Definition error := option string.

(** *** package strings *)

(** [strings.HasPrefix(s, prefix)]. *)
Definition HasPrefix (s pre : string) : bool := String.prefix pre s.

(** [strings.Contains(s, substr)]: some suffix of [s] starts with
    [substr]. *)
Fixpoint Contains (s substr : string) : bool :=
  if String.prefix substr s then true
  else match s with
       | EmptyString => false
       | String _ rest => Contains rest substr
       end.

Definition rev (s : string) : string :=
  string_of_list_ascii (List.rev (list_ascii_of_string s)).

(** The ASCII white space of [strings.TrimSpace]'s fast path:
    '\t', '\n', '\v', '\f', '\r', ' '. *)
Definition asciiSpace (c : ascii) : bool :=
  let n := nat_of_ascii c in
  ((9 <=? n) && (n <=? 13)) || (n =? 32).

Definition byteIs (c : ascii) (n : nat) : bool := nat_of_ascii c =? n.

(** The non-ASCII runes of [unicode.IsSpace] are U+0085, U+00A0, U+1680,
    U+2000..U+200A, U+2028, U+2029, U+202F, U+205F and U+3000.  A rune
    decodes to one of them exactly when the bytes are its UTF-8 encoding
    (an overlong or truncated encoding decodes to U+FFFD, which is not
    white space), so white space is recognised on the encodings:
    C2 85, C2 A0, E1 9A 80, E2 80 80..8A, E2 80 A8, E2 80 A9, E2 80 AF,
    E2 81 9F, E3 80 80. *)
Definition space2 (a b : ascii) : bool :=
  byteIs a 194 && (byteIs b 133 || byteIs b 160).

Definition space3 (a b c : ascii) : bool :=
  (byteIs a 225 && byteIs b 154 && byteIs c 128)
  || (byteIs a 226 && byteIs b 128
      && (((128 <=? nat_of_ascii c) && (nat_of_ascii c <=? 138))
          || byteIs c 168 || byteIs c 169 || byteIs c 175))
  || (byteIs a 226 && byteIs b 129 && byteIs c 159)
  || (byteIs a 227 && byteIs b 128 && byteIs c 128).

(** [strings.TrimLeftFunc(s, unicode.IsSpace)]: drop white-space runes
    from the front. *)
Fixpoint TrimLeftSpace (s : string) : string :=
  match s with
  | EmptyString => EmptyString
  | String a s1 =>
      if asciiSpace a then TrimLeftSpace s1
      else match s1 with
           | EmptyString => s
           | String b s2 =>
               if space2 a b then TrimLeftSpace s2
               else match s2 with
                    | EmptyString => s
                    | String c s3 =>
                        if space3 a b c then TrimLeftSpace s3 else s
                    end
           end
  end.

(** [strings.TrimRightFunc(s, unicode.IsSpace)], on the reversed string:
    the encodings are read last byte first. *)
Fixpoint TrimLeftSpaceRev (r : string) : string :=
  match r with
  | EmptyString => EmptyString
  | String c r1 =>
      if asciiSpace c then TrimLeftSpaceRev r1
      else match r1 with
           | EmptyString => r
           | String b r2 =>
               if space2 b c then TrimLeftSpaceRev r2
               else match r2 with
                    | EmptyString => r
                    | String a r3 =>
                        if space3 a b c then TrimLeftSpaceRev r3 else r
                    end
           end
  end.

Definition TrimRightSpace (s : string) : string :=
  rev (TrimLeftSpaceRev (rev s)).

(** [strings.TrimSpace(s)]: leading and trailing white space removed. *)
Definition TrimSpace (s : string) : string :=
  TrimRightSpace (TrimLeftSpace s).

(** *** package fmt *)

(** [fmt.Sprintf("%s(%s)", a, b)]. *)
Definition Sprintf_s_paren_s (a b : string) : string :=
  (a ++ "(" ++ b ++ ")")%string.

(** *** package regexp, character classes (RE2 syntax, ASCII only) *)

Definition inRange (lo hi : nat) (c : ascii) : bool :=
  let n := nat_of_ascii c in (lo <=? n) && (n <=? hi).

(** [[A-Z]] *)
Definition isUpper (c : ascii) : bool := inRange 65 90 c.

(** [\d] *)
Definition isDigit (c : ascii) : bool := inRange 48 57 c.

(** [\w] is [[0-9A-Za-z_]]; the class [[\w\d_]] of the program is the
    same set. *)
Definition isWord (c : ascii) : bool :=
  isDigit c || isUpper c || inRange 97 122 c || byteIs c 95.

(** [\s] is [[\t\n\f\r ]] (no vertical tab). *)
Definition isReSpace (c : ascii) : bool :=
  byteIs c 9 || byteIs c 10 || byteIs c 12 || byteIs c 13 || byteIs c 32.

(** The longest prefix of [s] whose characters satisfy [p], and the
    rest. *)
Fixpoint span (p : ascii -> bool) (s : string) : string * string :=
  match s with
  | EmptyString => (EmptyString, EmptyString)
  | String c rest =>
      if p c then let (a, b) := span p rest in (String c a, b)
      else (EmptyString, s)
  end.

(** [s] without its first [n] characters. *)
Fixpoint drop (n : nat) (s : string) : string :=
  match n, s with
  | O, _ => s
  | S _, EmptyString => EmptyString
  | S k, String _ rest => drop k rest
  end.

(** *** package regexp, patterns given at run time

    The syntax and the matching of the patterns of the configuration are
    Go's; the program only relies on the interface: [regexp.Compile]
    accepts a pattern or reports a syntax error, and a compiled pattern
    decides whether a string contains a match. *)
Class RegexpEngine : Type := {
  Regexp : Type;
  (** [regexp.Compile(pattern)]; [None] is a syntax error. *)
  Compile : string -> option Regexp;
  (** [re.MatchString(s)]. *)
  reMatchString : Regexp -> string -> bool
}.

(** [regexp.MatchString(pattern, s)], as the library defines it:
    [re, err := Compile(pattern); if err != nil { return false, err };
     return re.MatchString(s), nil]. *)
Definition regexp_MatchString `{RegexpEngine} (pattern s : string)
  : bool * error :=
  match Compile pattern with
  | None => (false, Some ("error parsing regexp: " ++ pattern)%string)
  | Some re => (reMatchString re s, None)
  end.

(** The new-line character written by [fmt.Fprintln] and by ["\n"]. *)
Definition nl : string := String (ascii_of_nat 10) EmptyString.

End Go.

Import Go.

(** ** The extraction pattern

    [re := regexp.MustCompile(`SIG=@GV\.([\w\d_]+)\s+TYPE=([A-Z]+)`)] is a
    constant of the program, so [re.FindStringSubmatch] is written out for
    it.  In the pattern every repetition is followed by a literal that its
    class excludes (white space after the name, [T] after the white space)
    or by the end of the pattern, so the leftmost-first match takes the
    longest run at each repetition; the match may start anywhere in the
    line, and the leftmost start wins. *)

(** The pattern anchored at the start of [s]: the two submatches. *)
Definition matchHere (s : string) : option (string * string) :=
  if HasPrefix s "SIG=@GV." then
    let (varName, afterName) := span isWord (drop 8 s) in
    let (blank, afterBlank) := span isReSpace afterName in
    if (String.length varName =? 0) || (String.length blank =? 0) then None
    else if HasPrefix afterBlank "TYPE=" then
      let (varType, _) := span isUpper (drop 5 afterBlank) in
      if String.length varType =? 0 then None
      else Some (varName, varType)
    else None
  else None.

(** [re.FindStringSubmatch(line)], reduced to [matches[1]] and
    [matches[2]]; [None] is the [nil] slice. *)
Fixpoint FindStringSubmatch (line : string) : option (string * string) :=
  match matchHere line with
  | Some m => Some m
  | None =>
      match line with
      | EmptyString => None
      | String _ rest => FindStringSubmatch rest
      end
  end.

(** ** Process state and files *)

(** [Spares] of the YAML configuration (both iterations). *)
Record SparesT : Type := mkSpares {
  DO : string;
  DI : string;
  AO : string;
  AI : string
}.

(** The package-level variables of the program, and the lines the standard
    logger has written so far (without the date, time and file prefix). *)
Record Process (Config : Type) : Type := mkProcess {
  GlobalConfig : Config;
  ListAO : list string;
  ListAI : list string;
  ListDO : list string;
  ListDI : list string;
  LogOutput : list string
}.

(** [ListAO = append(ListAO, x)] and its three siblings. *)
Definition appendAO {C} (x : string) (st : Process C) : Process C :=
  mkProcess (GlobalConfig st) (ListAO st ++ [x]) (ListAI st) (ListDO st)
            (ListDI st) (LogOutput st).

Definition appendAI {C} (x : string) (st : Process C) : Process C :=
  mkProcess (GlobalConfig st) (ListAO st) (ListAI st ++ [x]) (ListDO st)
            (ListDI st) (LogOutput st).

Definition appendDO {C} (x : string) (st : Process C) : Process C :=
  mkProcess (GlobalConfig st) (ListAO st) (ListAI st) (ListDO st ++ [x])
            (ListDI st) (LogOutput st).

Definition appendDI {C} (x : string) (st : Process C) : Process C :=
  mkProcess (GlobalConfig st) (ListAO st) (ListAI st) (ListDO st)
            (ListDI st ++ [x]) (LogOutput st).

(** [ListAO, ListAI, ListDO, ListDI = []string{}, []string{}, []string{},
    []string{}]. *)
Definition resetLists {C} (st : Process C) : Process C :=
  mkProcess (GlobalConfig st) [] [] [] [] (LogOutput st).

(** [log.Printf] / [log.Println]: one more line on the logger's output. *)
Definition logLine {C} (msg : string) (st : Process C) : Process C :=
  mkProcess (GlobalConfig st) (ListAO st) (ListAI st) (ListDO st)
            (ListDI st) (LogOutput st ++ [msg]).

(** What a [bufio.Scanner] with the default line splitter yields over an
    opened file: the successive values of [scanner.Text()] and the final
    [scanner.Err()].  When the scanner stops on an error (a read error, a
    line longer than its buffer), [Lines] holds the lines it yielded before
    stopping. *)
Record ScannedFile : Type := mkScanned {
  Lines : list string;
  ScanErr : error
}.

(** The file system as the program sees it: [os.Open(path)] gives a file to
    scan or an error, [os.Create(name)] succeeds or gives an error, and
    so does flushing a text to the created file. *)
Record FileSystem : Type := mkFS {
  os_Open : string -> ScannedFile + string;
  os_Create : string -> error;
  file_Flush : string -> string -> error
}.

(** [write] of [generateListsFile]: the text it adds to the buffered
    writer [w]. *)
Definition write (code title : string) (items : list string) (w : string)
  : string :=
  let w1 := (w ++ "*LIST " ++ code ++ "   '" ++ title ++ "'" ++ nl)%string in
  let w2 := fold_left (fun acc item => (acc ++ item ++ nl)%string) items w1 in
  (w2 ++ nl)%string.

Definition ListFile : string := "__lists.ini".

(** ** The iteration "v3.2 (Regex Logic)" *)

Module V3_2.

Record ClassificationT : Type := mkClassification {
  AnalogRegex : list string;
  DigitalRegex : list string
}.

Record AppT : Type := mkApp {
  SigExtPath : string;
  SigExtFlags : string;
  Classification : ClassificationT;
  Spares : SparesT
}.

Record Config : Type := mkConfig { App : AppT }.

Section WithEngine.

Context {engine : RegexpEngine}.

(** [isMatchRegex]: the error of [regexp.MatchString] is dropped, and
    nothing is logged. *)
Fixpoint isMatchRegex (name : string) (patterns : list string) : bool :=
  match patterns with
  | [] => false
  | p :: rest =>
      let (matched, _) := regexp_MatchString p name in
      if matched then true else isMatchRegex name rest
  end.

(** The branches of the mirror logic, for one extracted pair. *)
Definition classify (spares : SparesT) (rules : ClassificationT)
  (varName varType : string) (st : Process Config) : Process Config :=
  let fullName := ("@GV." ++ varName)%string in
  if Contains varType "AA" || Contains varType "REAL" then
    let isOutput := isMatchRegex varName (AnalogRegex rules) in
    if isOutput then
      appendAI (Sprintf_s_paren_s (AI spares) varName) (appendAO fullName st)
    else
      appendAO (Sprintf_s_paren_s (AO spares) varName) (appendAI fullName st)
  else if Contains varType "LA" || Contains varType "BOOL" then
    let isOutput := isMatchRegex varName (DigitalRegex rules) in
    if isOutput then
      appendDI (Sprintf_s_paren_s (DI spares) varName) (appendDO fullName st)
    else
      appendDO (Sprintf_s_paren_s (DO spares) varName) (appendDI fullName st)
  else if (varType =? "AO")%string then
    appendAI (Sprintf_s_paren_s (AI spares) varName) (appendAO fullName st)
  else if (varType =? "DO")%string then
    appendDI (Sprintf_s_paren_s (DI spares) varName) (appendDO fullName st)
  else st.

(** The body of the [for scanner.Scan()] loop, [text] being
    [scanner.Text()]. *)
Definition scanLine (spares : SparesT) (rules : ClassificationT)
  (text : string) (st : Process Config) : Process Config :=
  let line := TrimSpace text in
  if negb (HasPrefix line "SIG=") then st
  else
    match FindStringSubmatch line with
    | Some (varName, varType) => classify spares rules varName varType st
    | None => st
    end.

(** The whole loop over the lines of the file. *)
Definition scanLoop (spares : SparesT) (rules : ClassificationT)
  (lines : list string) (st : Process Config) : Process Config :=
  fold_left (fun s text => scanLine spares rules text s) lines st.

(** [processSigFile(path)]: the new process state and the returned
    error. *)
Definition processSigFile (fs : FileSystem) (path : string)
  (st : Process Config) : Process Config * error :=
  match os_Open fs path with
  | inr err => (st, Some err)
  | inl file =>
      let st0 := resetLists st in
      let spares := Spares (App (GlobalConfig st0)) in
      let rules := Classification (App (GlobalConfig st0)) in
      (scanLoop spares rules (Lines file) st0, ScanErr file)
  end.

(** [generateListsFile()]: [inr err] when the file cannot be created or
    written, [inl text] when [text] was flushed to it and [nil]
    returned. *)
Definition generateListsFile (fs : FileSystem) (st : Process Config)
  : string + string :=
  match os_Create fs ListFile with
  | Some err => inr err
  | None =>
      let w := EmptyString in
      let w := write "32761" "ENTRADAS ANALOGICAS DNP" (ListAI st) w in
      let w := write "32762" "SALIDAS ANALOGICAS DNP" (ListAO st) w in
      let w := write "32763" "ENTRADAS DIGITALES DNP" (ListDI st) w in
      let w := write "32764" "SALIDAS DIGITALES DNP" (ListDO st) w in
      match file_Flush fs ListFile w with
      | Some err => inr err
      | None => inl w
      end
  end.

(** How a run of [main] ends. *)
Inductive Outcome : Type :=
| Fatal (* log.Fatalf: the process exits with status 1 *)
| Written (text : string) (* __lists.ini holds [text] *).

(** [main] from [log.Printf("Procesando: %s", ...)] to the call of
    [generateListsFile]; [base] is [filepath.Base(sigFile)]. *)
Definition mainProcess (fs : FileSystem) (sigFile base : string)
  (st : Process Config) : Process Config * Outcome :=
  let st := logLine ("Procesando: " ++ base)%string st in
  match processSigFile fs sigFile st with
  | (st, Some err) =>
      (logLine ("[FATAL] Error procesando: " ++ err)%string st, Fatal)
  | (st, None) =>
      let st := logLine "Generando __lists.ini..." st in
      match generateListsFile fs st with
      | inr err =>
          (logLine ("[FATAL] Error escribiendo INI: " ++ err)%string st, Fatal)
      | inl text => (st, Written text)
      end
  end.

End WithEngine.

End V3_2.

(** ** The iteration "v2.2 (Path Fix)" (main.go) *)

Module V2_2.

Record AppT : Type := mkApp {
  SigExtPath : string;
  SigExtFlags : string;
  Spares : SparesT
}.

Record Config : Type := mkConfig { App : AppT }.

(** The branches of the mirror logic, for one extracted pair. *)
Definition classify (spares : SparesT) (varName varType : string)
  (st : Process Config) : Process Config :=
  let fullName := ("@GV." ++ varName)%string in
  if (varType =? "AAR")%string || (varType =? "AA")%string then
    let isLIT := Contains varName "LIT" in
    let isHiHi := Contains varName "H_H" in
    let isLoLo := Contains varName "L_L" in
    let isSP := Contains varName "_SP" in
    let isSPAN := Contains varName "_SPAN" in
    let isOutput :=
      (isLIT && isHiHi) || (isLIT && isLoLo) || (isSP && negb isSPAN) in
    if isOutput then
      appendAI fullName (appendAO fullName st)
    else
      appendAO (AO spares) (appendAI fullName st)
  else if (varType =? "LA")%string then
    let isCmd :=
      Contains varName "_RESET" || Contains varName "_CMD"
      || Contains varName "_WD" || Contains varName "_MANUAL"
      || Contains varName "_OUT" || Contains varName "_PULSO" in
    if isCmd then
      appendDI (DI spares) (appendDO fullName st)
    else
      appendDO (DO spares) (appendDI fullName st)
  else if (varType =? "AO")%string then
    appendAI (AI spares) (appendAO fullName st)
  else if (varType =? "DO")%string then
    appendDI (DI spares) (appendDO fullName st)
  else st.

(** The body of the [for scanner.Scan()] loop. *)
Definition scanLine (spares : SparesT) (text : string)
  (st : Process Config) : Process Config :=
  let line := TrimSpace text in
  if negb (HasPrefix line "SIG=") then st
  else
    match FindStringSubmatch line with
    | Some (varName, varType) => classify spares varName varType st
    | None => st
    end.

Definition scanLoop (spares : SparesT) (lines : list string)
  (st : Process Config) : Process Config :=
  fold_left (fun s text => scanLine spares text s) lines st.

(** [processSigFile(path)]. *)
Definition processSigFile (fs : FileSystem) (path : string)
  (st : Process Config) : Process Config * error :=
  match os_Open fs path with
  | inr err => (st, Some err)
  | inl file =>
      let st0 := resetLists st in
      let spares := Spares (App (GlobalConfig st0)) in
      (scanLoop spares (Lines file) st0, ScanErr file)
  end.

(** [generateListsFile()]: the sections are written digital outputs
    first. *)
Definition generateListsFile (fs : FileSystem) (st : Process Config)
  : string + string :=
  match os_Create fs ListFile with
  | Some err => inr err
  | None =>
      let w := EmptyString in
      let w := write "32764" "SALIDAS DIGITALES DNP" (ListDO st) w in
      let w := write "32763" "ENTRADAS DIGITALES DNP" (ListDI st) w in
      let w := write "32762" "SALIDAS ANALOGICAS DNP" (ListAO st) w in
      let w := write "32761" "ENTRADAS ANALOGICAS DNP" (ListAI st) w in
      match file_Flush fs ListFile w with
      | Some err => inr err
      | None => inl w
      end
  end.

End V2_2.

(** ** Vocabulary of the statements *)

(** The four category lists. *)
Inductive Category : Type := CatAI | CatAO | CatDI | CatDO.

(** The list of the opposite direction in the same family. *)
Definition paired (c : Category) : Category :=
  match c with
  | CatAI => CatAO
  | CatAO => CatAI
  | CatDI => CatDO
  | CatDO => CatDI
  end.

Definition listOf {C} (c : Category) (st : Process C) : list string :=
  match c with
  | CatAI => ListAI st
  | CatAO => ListAO st
  | CatDI => ListDI st
  | CatDO => ListDO st
  end.

(** The configured spare text of a category. *)
Definition spareOf (spares : SparesT) (c : Category) : string :=
  match c with
  | CatAI => AI spares
  | CatAO => AO spares
  | CatDI => DI spares
  | CatDO => DO spares
  end.

(** Between [st] and [st'], [entry] was appended to the list [c] and
    [mirror] to the paired list, and the two lists of the other family
    were left alone. *)
Definition PlacedIn {C} (c : Category) (entry mirror : string)
  (st st' : Process C) : Prop :=
  listOf c st' = listOf c st ++ [entry]
  /\ listOf (paired c) st' = listOf (paired c) st ++ [mirror]
  /\ (forall c', c' <> c -> c' <> paired c -> listOf c' st' = listOf c' st).

(** The mirror invariant. *)
Definition Mirrored {C} (st : Process C) : Prop :=
  length (ListAI st) = length (ListAO st)
  /\ length (ListDI st) = length (ListDO st).

(** The four lists of two states agree. *)
Definition sameLists {C} (st st' : Process C) : Prop :=
  forall c, listOf c st' = listOf c st.

(** [text] is a declaration line: trimmed, it begins with [SIG=]. *)
Definition isDeclaration (text : string) : bool :=
  HasPrefix (TrimSpace text) "SIG=".

(** The pair a declaration line yields, when the pattern matches. *)
Definition extract (text : string) : option (string * string) :=
  if isDeclaration text then FindStringSubmatch (TrimSpace text) else None.

(** The canonical reference of a point. *)
Definition canonical (varName : string) : string :=
  ("@GV." ++ varName)%string.

(** The type tags the regex iteration classifies. *)
Definition recognised3 (varType : string) : bool :=
  Contains varType "AA" || Contains varType "REAL"
  || Contains varType "LA" || Contains varType "BOOL"
  || (varType =? "AO")%string || (varType =? "DO")%string.

(** The list that receives the canonical reference of a point in the
    regex iteration, if any. *)
Definition direction3 {engine : RegexpEngine} (rules : V3_2.ClassificationT)
  (varName varType : string) : option Category :=
  if Contains varType "AA" || Contains varType "REAL" then
    Some (if V3_2.isMatchRegex varName (V3_2.AnalogRegex rules)
          then CatAO else CatAI)
  else if Contains varType "LA" || Contains varType "BOOL" then
    Some (if V3_2.isMatchRegex varName (V3_2.DigitalRegex rules)
          then CatDO else CatDI)
  else if (varType =? "AO")%string then Some CatAO
  else if (varType =? "DO")%string then Some CatDO
  else None.

(** The type tags the earlier iteration classifies. *)
Definition recognised2 (varType : string) : bool :=
  (varType =? "AAR")%string || (varType =? "AA")%string
  || (varType =? "LA")%string
  || (varType =? "AO")%string || (varType =? "DO")%string.

(** The fixed substring test of the earlier iteration for an analog
    output. *)
Definition analogOutput2 (varName : string) : bool :=
  (Contains varName "LIT" && Contains varName "H_H")
  || (Contains varName "LIT" && Contains varName "L_L")
  || (Contains varName "_SP" && negb (Contains varName "_SPAN")).

(** The fixed substring test of the earlier iteration for a digital
    output. *)
Definition digitalOutput2 (varName : string) : bool :=
  Contains varName "_RESET" || Contains varName "_CMD"
  || Contains varName "_WD" || Contains varName "_MANUAL"
  || Contains varName "_OUT" || Contains varName "_PULSO".

(** The tags of the earlier iteration's analog branch. *)
Definition analogTag2 (varType : string) : bool :=
  (varType =? "AAR")%string || (varType =? "AA")%string.

(** The list that receives the canonical reference of a point in the
    earlier iteration, if any. *)
Definition direction2 (varName varType : string) : option Category :=
  if analogTag2 varType then
    Some (if analogOutput2 varName then CatAO else CatAI)
  else if (varType =? "LA")%string then
    Some (if digitalOutput2 varName then CatDO else CatDI)
  else if (varType =? "AO")%string then Some CatAO
  else if (varType =? "DO")%string then Some CatDO
  else None.

(** The text the earlier iteration puts in the paired list: the bare
    spare, except for an analog point found to be an output, whose
    reference is mirrored. *)
Definition mirror2 (spares : SparesT) (varName varType : string)
  (c : Category) : string :=
  if analogTag2 varType && analogOutput2 varName then canonical varName
  else spareOf spares (paired c).

(** One section of the list file: header, one entry per line, one blank
    line. *)
Definition sectionText (code title : string) (items : list string) : string :=
  ("*LIST " ++ code ++ "   '" ++ title ++ "'" ++ nl
   ++ String.concat "" (map (fun item => item ++ nl) items) ++ nl)%string.

Definition sectionAI {C} (st : Process C) : string :=
  sectionText "32761" "ENTRADAS ANALOGICAS DNP" (ListAI st).

Definition sectionAO {C} (st : Process C) : string :=
  sectionText "32762" "SALIDAS ANALOGICAS DNP" (ListAO st).

Definition sectionDI {C} (st : Process C) : string :=
  sectionText "32763" "ENTRADAS DIGITALES DNP" (ListDI st).

Definition sectionDO {C} (st : Process C) : string :=
  sectionText "32764" "SALIDAS DIGITALES DNP" (ListDO st).

(** [l1] is [l2] with some elements removed, the order kept. *)
Inductive Subseq {A : Type} : list A -> list A -> Prop :=
| Subseq_nil : Subseq [] []
| Subseq_skip x l1 l2 : Subseq l1 l2 -> Subseq l1 (x :: l2)
| Subseq_keep x l1 l2 : Subseq l1 l2 -> Subseq (x :: l1) (x :: l2).

(** The real entries among the entries [contribution] that the line
    [text] put in a list: those that are the canonical reference of the
    point the line declares. *)
Definition realEntries (text : string) (contribution : list string)
  : list string :=
  match extract text with
  | Some (varName, _) => filter (String.eqb (canonical varName)) contribution
  | None => []
  end.

(** ** Concrete data for running the model *)

(** An engine for the patterns made of word characters only: Go compiles
    such a pattern to a search for the literal text.  Every other pattern
    is rejected here; among them is ["("], which Go rejects too (missing
    closing parenthesis). *)
Fixpoint allWord (s : string) : bool :=
  match s with
  | EmptyString => true
  | String c rest => isWord c && allWord rest
  end.

Definition literalEngine : RegexpEngine :=
  {| Regexp := string;
     Compile := fun p => if allWord p then Some p else None;
     reMatchString := fun re s => Contains s re |}.

Definition sampleSpares : SparesT :=
  mkSpares "SPARE_DO" "SPARE_DI" "SPARE_AO" "SPARE_AI".

Definition sampleConfig3 (analog digital : list string) : V3_2.Config :=
  V3_2.mkConfig
    (V3_2.mkApp "SIGEXT.exe" "" (V3_2.mkClassification analog digital)
                sampleSpares).

Definition sampleConfig2 : V2_2.Config :=
  V2_2.mkConfig (V2_2.mkApp "SIGEXT.exe" "" sampleSpares).

(** A process before [processSigFile] ran: the lists hold [old]. *)
Definition startWith {C} (cfg : C) (old : list string) : Process C :=
  mkProcess cfg old old old old [].

(** A file system holding one readable file of the given lines at every
    path, where files can be created and written. *)
Definition fileOf (lines : list string) : FileSystem :=
  mkFS (fun _ => inl (mkScanned lines None)) (fun _ => None)
       (fun _ _ => None).

(** A few declaration lines, one per branch of the mirror logic, a line
    that is no declaration and a declaration with an unknown tag. *)
Definition sampleLines : list string :=
  [ "SIG=@GV.FT041_H_H TYPE=AA";
    "  SIG=@GV.VALVE1_CMD   TYPE=LA";
    "SIG=@GV.PUMP2 TYPE=AO";
    "NOTES=random text";
    "SIG=@GV.X TYPE=ZZ";
    "SIG=@GV.LIT1_H_H TYPE=AAR" ].

(** A process whose lists hold leftovers of unequal lengths. *)
Definition leftover {C} (cfg : C) : Process C :=
  mkProcess cfg ["a"] [] ["b"; "c"] [] ["earlier log line"].

(** ** Vocabulary of the further properties *)

(** Every character of [s] satisfies [p]. *)
Fixpoint allOf (p : ascii -> bool) (s : string) : bool :=
  match s with
  | EmptyString => true
  | String c rest => p c && allOf p rest
  end.

(** [s] is empty or its first character fails [p]. *)
Definition stopsAt (p : ascii -> bool) (s : string) : bool :=
  match s with
  | EmptyString => true
  | String c _ => negb (p c)
  end.

Definition nonEmpty (s : string) : bool := negb (String.length s =? 0).

(** The text of a declaration: the reference of the point, white space,
    the type tag, and whatever follows. *)
Definition declaration (varName blank varType rest : string) : string :=
  ("SIG=@GV." ++ varName ++ blank ++ "TYPE=" ++ varType ++ rest)%string.

(** The parts of a declaration are what the extraction pattern demands: a
    name of word characters, a run of white space, a tag of capital
    letters that [rest] does not prolong. *)
Definition wellFormed (varName blank varType rest : string) : bool :=
  nonEmpty varName && allOf isWord varName
  && nonEmpty blank && allOf isReSpace blank
  && nonEmpty varType && allOf isUpper varType
  && stopsAt isUpper rest.

(** [s] is made of the ASCII white space of [strings.TrimSpace]. *)
Definition isBlank (s : string) : bool := allOf asciiSpace s.

(** A row of two paired lists: the entry of the input list and the entry
    of the output list at the same index.  One of them is the canonical
    reference of a point with a proper name and the other the spare
    rendered for that point; with [both], the two may be the reference. *)
Definition AlignedRow (spareIn spareOut : string -> string) (both : bool)
  (inEntry outEntry : string) : Prop :=
  exists varName,
    nonEmpty varName && allOf isWord varName = true
    /\ ((inEntry = canonical varName /\ outEntry = spareOut varName)
        \/ (outEntry = canonical varName /\ inEntry = spareIn varName)
        \/ (both = true
            /\ inEntry = canonical varName /\ outEntry = canonical varName)).

(** The analog lists are related row by row by [RA], the digital lists by
    [RD]. *)
Definition Rows {C} (RA RD : string -> string -> Prop) (st : Process C)
  : Prop :=
  Forall2 RA (ListAI st) (ListAO st) /\ Forall2 RD (ListDI st) (ListDO st).

(** [s] holds no new-line character. *)
Definition oneLine (s : string) : bool :=
  allOf (fun c => negb (byteIs c 10)) s.

(** The four spares hold no new-line character. *)
Definition spareLines (spares : SparesT) : bool :=
  oneLine (AI spares) && oneLine (AO spares)
  && oneLine (DI spares) && oneLine (DO spares).

(** The four spares are not empty. *)
Definition spareTexts (spares : SparesT) : bool :=
  nonEmpty (AI spares) && nonEmpty (AO spares)
  && nonEmpty (DI spares) && nonEmpty (DO spares).

(** The lines of a text: the pieces that end at each new-line character,
    and what follows the last one when it is not empty. *)
Fixpoint linesOf (s : string) : list string :=
  match s with
  | EmptyString => []
  | String c rest =>
      if byteIs c 10 then EmptyString :: linesOf rest
      else match linesOf rest with
           | [] => [String c EmptyString]
           | l :: ls => String c l :: ls
           end
  end.

(** The header lines of the four sections. *)
Definition headerAI : string := "*LIST 32761   'ENTRADAS ANALOGICAS DNP'".
Definition headerAO : string := "*LIST 32762   'SALIDAS ANALOGICAS DNP'".
Definition headerDI : string := "*LIST 32763   'ENTRADAS DIGITALES DNP'".
Definition headerDO : string := "*LIST 32764   'SALIDAS DIGITALES DNP'".

(** The family of a list: analog or digital. *)
Definition isAnalog (c : Category) : bool :=
  match c with
  | CatAI | CatAO => true
  | CatDI | CatDO => false
  end.

(** The markers of a digital output in the earlier iteration. *)
Definition digitalMarkers : list string :=
  ["_RESET"; "_CMD"; "_WD"; "_MANUAL"; "_OUT"; "_PULSO"].

(** The engine compiles [p] to the search for the text [p] itself, as
    Go's does for a pattern without special characters. *)
Definition literalFor {engine : RegexpEngine} (p : string) : Prop :=
  exists re,
    Compile p = Some re /\ forall s, reMatchString re s = Contains s p.

(** The family into which a line is classified, if it is. *)
Definition family3 {engine : RegexpEngine} (rules : V3_2.ClassificationT)
  (text : string) : option bool :=
  match extract text with
  | Some (varName, varType) =>
      option_map isAnalog (direction3 rules varName varType)
  | None => None
  end.

Definition family2 (text : string) : option bool :=
  match extract text with
  | Some (varName, varType) =>
      option_map isAnalog (direction2 varName varType)
  | None => None
  end.

(** The number of lines of a family. *)
Definition countFamily (family : string -> option bool) (analog : bool)
  (lines : list string) : nat :=
  length
    (filter
       (fun text =>
          match family text with
          | Some a => Bool.eqb a analog
          | None => false
          end)
       lines).

(** ** The external tool *)

Module GoExec.

(** The current field, if it is not empty. *)
Definition flush (cur : string) : list string :=
  if nonEmpty cur then [cur] else [].

(** [strings.Fields(s)]: the maximal runs of [s] without white-space
    rune.  White space is recognised on its encodings, as for
    [TrimSpace]; a byte inside a rune that is no white space starts no
    encoding of a white-space rune, so the text is read byte by byte.
    [cur] is the field being read. *)
Fixpoint FieldsFrom (cur : string) (s : string) : list string :=
  match s with
  | EmptyString => flush cur
  | String a s1 =>
      if asciiSpace a then flush cur ++ FieldsFrom EmptyString s1
      else
        match s1 with
        | EmptyString => FieldsFrom (cur ++ String a EmptyString) s1
        | String b s2 =>
            if space2 a b then flush cur ++ FieldsFrom EmptyString s2
            else
              match s2 with
              | EmptyString => FieldsFrom (cur ++ String a EmptyString) s1
              | String c s3 =>
                  if space3 a b c
                  then flush cur ++ FieldsFrom EmptyString s3
                  else FieldsFrom (cur ++ String a EmptyString) s1
              end
        end
  end.

Definition Fields (s : string) : list string := FieldsFrom EmptyString s.

(** What the program asks of the operating system around the external
    tool: whether [os.Stat(path)] reports that the file does not exist,
    and what [Run] and [CombinedOutput] return when called on a command
    ([Run]: the error; [CombinedOutput]: the output and the error).  The
    error covers every way of failing, also failing before any process
    starts (an executable that cannot be found or executed). *)
Record OS : Type := mkOS {
  stat_IsNotExist : string -> bool;
  cmd_Run : string -> list string -> error;
  cmd_CombinedOutput : string -> list string -> string * error
}.

(** A command built by [exec.Command]: the executable and its
    arguments. *)
Definition Command : Type := (string * list string)%type.

End GoExec.

Import GoExec.

(** [runSigExt] of the regex iteration: the returned error and the
    commands on which [Run] was called.  Whether the system started a
    process for such a command shows only in the error [Run] returns. *)
Module V3_2_Tool.

Definition runSigExt (os : OS) (exePath flags mwtPath nodeName sigPath
                                : string) : error * list Command :=
  if stat_IsNotExist os exePath then (Some "exe no encontrado", [])
  else
    let args := [] in
    let args :=
      if negb (flags =? "")%string then args ++ Fields flags else args in
    let args := args ++ [mwtPath; nodeName; sigPath] in
    (cmd_Run os exePath args, [(exePath, args)]).

End V3_2_Tool.

(** [runSigExt] of the earlier iteration (main.go): the returned error
    and the commands on which [CombinedOutput] was called. *)
Module V2_2_Tool.

Definition runSigExt (os : OS) (exePath flags mwtPath nodeName sigPath
                                : string) : error * list Command :=
  if stat_IsNotExist os exePath
  then (Some ("ejecutable no encontrado: " ++ exePath)%string, [])
  else
    let args := [] in
    let args :=
      if negb (flags =? "")%string then args ++ Fields flags else args in
    let args := args ++ [mwtPath; nodeName; sigPath] in
    let (output, err) := cmd_CombinedOutput os exePath args in
    match err with
    | Some e =>
        (Some ("err: " ++ e ++ " | out: " ++ output)%string,
         [(exePath, args)])
    | None => (None, [(exePath, args)])
    end.

End V2_2_Tool.


(** * Properties *)

(** ** Strings *)

Lemma length_append (a b : string) :
  String.length (a ++ b) = String.length a + String.length b.
Proof. induction a as [|c a IH]; simpl; [reflexivity | now rewrite IH]. Qed.

Lemma append_assoc (a b c : string) :
  ((a ++ b) ++ c = a ++ (b ++ c))%string.
Proof. induction a as [|x a IH]; simpl; [reflexivity | now rewrite IH]. Qed.

Lemma append_empty_r (a : string) : (a ++ "")%string = a.
Proof. induction a as [|x a IH]; simpl; [reflexivity | now rewrite IH]. Qed.

(** An annotated spare is never the text of the canonical reference of
    the point it is annotated with. *)
Lemma annotated_spare_not_canonical (spare varName : string) :
  Sprintf_s_paren_s spare varName <> canonical varName.
Proof.
  unfold Sprintf_s_paren_s, canonical. intro H.
  assert (L : String.length spare = 2).
  { apply (f_equal String.length) in H.
    repeat (rewrite length_append in H; simpl in H). lia. }
  destruct spare as [|a [|b [|c s]]]; simpl in L; try discriminate L.
  simpl in H. discriminate H.
Qed.

(** ** The library model on examples *)

Example find_PUMP2 :
  FindStringSubmatch "SIG=@GV.PUMP2 TYPE=AO" = Some ("PUMP2", "AO").
Proof. reflexivity. Qed.

(** The match may start inside the line, white space between the name and
    [TYPE=] may be tabs, and the tag ends at the first character that is no
    capital letter. *)
Example find_inner :
  FindStringSubmatch
    ("SIG=x SIG=@GV.FT041_H_H " ++ String (ascii_of_nat 9) " TYPE=AA9 more")
  = Some ("FT041_H_H", "AA").
Proof. reflexivity. Qed.

Example find_needs_blank :
  FindStringSubmatch "SIG=@GV.PUMP2,TYPE=AO" = None.
Proof. reflexivity. Qed.

Example trim_ascii :
  TrimSpace ("  " ++ String (ascii_of_nat 9) "SIG=@GV.A TYPE=LA "
             ++ String (ascii_of_nat 13) "")
  = "SIG=@GV.A TYPE=LA".
Proof. reflexivity. Qed.

(** A no-break space (U+00A0, bytes C2 A0) in front and an ideographic
    space (U+3000, bytes E3 80 80) behind are trimmed; a lone byte C2 is
    not. *)
Example trim_unicode :
  TrimSpace (String (ascii_of_nat 194) (String (ascii_of_nat 160) "SIG=x")
             ++ String (ascii_of_nat 227)
                  (String (ascii_of_nat 128) (String (ascii_of_nat 128) "")))
  = "SIG=x"
  /\ TrimSpace (String (ascii_of_nat 194) " SIG=x")
     = String (ascii_of_nat 194) " SIG=x".
Proof. split; reflexivity. Qed.

(** ** The process state under appends *)

Lemma placed_AO {C} (x y : string) (st : Process C) :
  PlacedIn CatAO x y st (appendAI y (appendAO x st)).
Proof.
  repeat split. intros [] H1 H2; try reflexivity; contradiction.
Qed.

Lemma placed_AI {C} (x y : string) (st : Process C) :
  PlacedIn CatAI x y st (appendAO y (appendAI x st)).
Proof.
  repeat split. intros [] H1 H2; try reflexivity; contradiction.
Qed.

Lemma placed_DO {C} (x y : string) (st : Process C) :
  PlacedIn CatDO x y st (appendDI y (appendDO x st)).
Proof.
  repeat split. intros [] H1 H2; try reflexivity; contradiction.
Qed.

Lemma placed_DI {C} (x y : string) (st : Process C) :
  PlacedIn CatDI x y st (appendDO y (appendDI x st)).
Proof.
  repeat split. intros [] H1 H2; try reflexivity; contradiction.
Qed.

(** A placement adds one entry to each list of one family. *)
Lemma placed_lengths {C} (c : Category) (x y : string) (st st' : Process C) :
  PlacedIn c x y st st' ->
  length (ListAI st') - length (ListAI st)
  = length (ListAO st') - length (ListAO st)
  /\ length (ListDI st') - length (ListDI st)
     = length (ListDO st') - length (ListDO st)
  /\ length (ListAI st) <= length (ListAI st')
  /\ length (ListAO st) <= length (ListAO st')
  /\ length (ListDI st) <= length (ListDI st')
  /\ length (ListDO st) <= length (ListDO st').
Proof.
  intros (H1 & H2 & H3).
  destruct c;
    [ pose proof (H3 CatDI ltac:(discriminate) ltac:(discriminate)) as E1;
      pose proof (H3 CatDO ltac:(discriminate) ltac:(discriminate)) as E2
    | pose proof (H3 CatDI ltac:(discriminate) ltac:(discriminate)) as E1;
      pose proof (H3 CatDO ltac:(discriminate) ltac:(discriminate)) as E2
    | pose proof (H3 CatAI ltac:(discriminate) ltac:(discriminate)) as E1;
      pose proof (H3 CatAO ltac:(discriminate) ltac:(discriminate)) as E2
    | pose proof (H3 CatAI ltac:(discriminate) ltac:(discriminate)) as E1;
      pose proof (H3 CatAO ltac:(discriminate) ltac:(discriminate)) as E2 ];
    simpl in *; rewrite H1, H2, E1, E2, ?length_app; simpl; lia.
Qed.

Lemma placed_keeps_mirror {C} (c : Category) (x y : string)
  (st st' : Process C) :
  PlacedIn c x y st st' -> Mirrored st -> Mirrored st'.
Proof.
  intros HP [HA HD]. destruct (placed_lengths HP) as (E1 & E2 & ?).
  split; lia.
Qed.

Lemma Subseq_app {A} (a a' b b' : list A) :
  Subseq a a' -> Subseq b b' -> Subseq (a ++ b) (a' ++ b').
Proof.
  induction 1 as [|x l1 l2 H IH|x l1 l2 H IH]; intros Hb; simpl.
  - exact Hb.
  - apply Subseq_skip, IH, Hb.
  - apply Subseq_keep, IH, Hb.
Qed.

Lemma Subseq_filter {A} (f : A -> bool) (l : list A) :
  Subseq (filter f l) l.
Proof.
  induction l as [|x l IH]; simpl; [constructor|].
  destruct (f x); constructor; assumption.
Qed.

Lemma Subseq_flat_map {A B} (f g : A -> list B) (l : list A) :
  (forall x, Subseq (f x) (g x)) -> Subseq (flat_map f l) (flat_map g l).
Proof.
  intros H. induction l as [|x l IH]; simpl; [constructor|].
  apply Subseq_app; auto.
Qed.

(** ** The regex iteration *)

Section RegexIteration.

Context {engine : RegexpEngine}.

Variable spares : SparesT.
Variable rules : V3_2.ClassificationT.

Lemma direction3_recognised (varName varType : string) :
  direction3 rules varName varType <> None <-> recognised3 varType = true.
Proof.
  unfold direction3, recognised3.
  destruct (Contains varType "AA"), (Contains varType "REAL"),
    (Contains varType "LA"), (Contains varType "BOOL"),
    (varType =? "AO")%string, (varType =? "DO")%string; simpl;
    split; intro H; try reflexivity; try discriminate; try congruence.
Qed.

(** What [classify] does, by the direction it chooses. *)
Lemma classify3_spec (varName varType : string) (st : Process V3_2.Config) :
  match direction3 rules varName varType with
  | Some c =>
      PlacedIn c (canonical varName)
        (Sprintf_s_paren_s (spareOf spares (paired c)) varName)
        st (V3_2.classify spares rules varName varType st)
  | None => V3_2.classify spares rules varName varType st = st
  end.
Proof.
  unfold direction3, V3_2.classify, canonical.
  destruct (Contains varType "AA" || Contains varType "REAL").
  { destruct (V3_2.isMatchRegex varName (V3_2.AnalogRegex rules));
      [apply placed_AO | apply placed_AI]. }
  destruct (Contains varType "LA" || Contains varType "BOOL").
  { destruct (V3_2.isMatchRegex varName (V3_2.DigitalRegex rules));
      [apply placed_DO | apply placed_DI]. }
  destruct (varType =? "AO")%string; [apply placed_AO|].
  destruct (varType =? "DO")%string; [apply placed_DO|].
  reflexivity.
Qed.

(** A line changes nothing or places one pair. *)
Lemma scanLine3_effect (text : string) (st : Process V3_2.Config) :
  V3_2.scanLine spares rules text st = st
  \/ exists c x y, PlacedIn c x y st (V3_2.scanLine spares rules text st).
Proof.
  unfold V3_2.scanLine.
  destruct (negb (HasPrefix (TrimSpace text) "SIG=")); [now left|].
  destruct (FindStringSubmatch (TrimSpace text)) as [[n t]|]; [|now left].
  pose proof (classify3_spec n t st) as H.
  destruct (direction3 rules n t) as [c|]; [right; eauto | now left].
Qed.

Lemma scanLine3_mirror (text : string) (st : Process V3_2.Config) :
  Mirrored st -> Mirrored (V3_2.scanLine spares rules text st).
Proof.
  intros M. destruct (scanLine3_effect text st) as [E | (c & x & y & HP)].
  - now rewrite E.
  - eapply placed_keeps_mirror; eauto.
Qed.

Lemma scanLoop3_mirror (lines : list string) (st : Process V3_2.Config) :
  Mirrored st -> Mirrored (V3_2.scanLoop spares rules lines st).
Proof.
  revert st. induction lines as [|text lines IH]; intros st M; simpl.
  - exact M.
  - apply IH, scanLine3_mirror, M.
Qed.

(** The configuration and the log are never written. *)
Lemma classify3_frame (varName varType : string) (st : Process V3_2.Config) :
  GlobalConfig (V3_2.classify spares rules varName varType st)
  = GlobalConfig st
  /\ LogOutput (V3_2.classify spares rules varName varType st)
     = LogOutput st.
Proof.
  unfold V3_2.classify.
  repeat match goal with
         | |- context [if ?b then _ else _] => destruct b
         end; split; reflexivity.
Qed.

Lemma scanLine3_frame (text : string) (st : Process V3_2.Config) :
  GlobalConfig (V3_2.scanLine spares rules text st) = GlobalConfig st
  /\ LogOutput (V3_2.scanLine spares rules text st) = LogOutput st.
Proof.
  unfold V3_2.scanLine.
  destruct (negb (HasPrefix (TrimSpace text) "SIG=")); [now split|].
  destruct (FindStringSubmatch (TrimSpace text)) as [[n t]|]; [|now split].
  apply classify3_frame.
Qed.

Lemma scanLoop3_frame (lines : list string) (st : Process V3_2.Config) :
  GlobalConfig (V3_2.scanLoop spares rules lines st) = GlobalConfig st
  /\ LogOutput (V3_2.scanLoop spares rules lines st) = LogOutput st.
Proof.
  revert st. induction lines as [|text lines IH]; intros st; simpl.
  - now split.
  - destruct (IH (V3_2.scanLine spares rules text st)) as [E1 E2].
    destruct (scanLine3_frame text st) as [F1 F2].
    split; congruence.
Qed.

(** What a line appends does not depend on the lists it is appended to. *)
Lemma classify3_append (c : Category) (varName varType : string)
  (st st0 : Process V3_2.Config) :
  listOf c (V3_2.classify spares rules varName varType st)
  = listOf c st
    ++ listOf c (V3_2.classify spares rules varName varType (resetLists st0)).
Proof.
  unfold V3_2.classify.
  repeat match goal with
         | |- context [if ?b then _ else _] => destruct b
         end; destruct c; simpl; rewrite ?app_nil_r; reflexivity.
Qed.

Lemma scanLine3_append (c : Category) (text : string)
  (st st0 : Process V3_2.Config) :
  listOf c (V3_2.scanLine spares rules text st)
  = listOf c st
    ++ listOf c (V3_2.scanLine spares rules text (resetLists st0)).
Proof.
  unfold V3_2.scanLine.
  destruct (negb (HasPrefix (TrimSpace text) "SIG="));
    [destruct c; simpl; now rewrite app_nil_r|].
  destruct (FindStringSubmatch (TrimSpace text)) as [[n t]|];
    [apply classify3_append | destruct c; simpl; now rewrite app_nil_r].
Qed.

Lemma scanLoop3_flat_map (c : Category) (lines : list string)
  (st st0 : Process V3_2.Config) :
  listOf c (V3_2.scanLoop spares rules lines st)
  = listOf c st
    ++ flat_map
         (fun text =>
            listOf c (V3_2.scanLine spares rules text (resetLists st0)))
         lines.
Proof.
  revert st. induction lines as [|text lines IH]; intros st; simpl.
  - now rewrite app_nil_r.
  - rewrite IH, (scanLine3_append c text st st0), app_assoc. reflexivity.
Qed.

End RegexIteration.

(** ** The earlier iteration *)

Section FixedIteration.

Variable spares : SparesT.

Lemma direction2_recognised (varName varType : string) :
  direction2 varName varType <> None <-> recognised2 varType = true.
Proof.
  unfold direction2, recognised2, analogTag2.
  destruct (varType =? "AAR")%string, (varType =? "AA")%string,
    (varType =? "LA")%string, (varType =? "AO")%string,
    (varType =? "DO")%string; simpl;
    split; intro H; try reflexivity; try discriminate; try congruence.
Qed.

(** What [classify] does, by the direction it chooses. *)
Lemma classify2_spec (varName varType : string) (st : Process V2_2.Config) :
  match direction2 varName varType with
  | Some c =>
      PlacedIn c (canonical varName) (mirror2 spares varName varType c)
        st (V2_2.classify spares varName varType st)
  | None => V2_2.classify spares varName varType st = st
  end.
Proof.
  unfold direction2, mirror2, V2_2.classify, canonical, analogTag2,
    analogOutput2, digitalOutput2.
  destruct ((varType =? "AAR")%string || (varType =? "AA")%string); simpl.
  { match goal with
    | |- context [if ?b then CatAO else CatAI] => destruct b
    end; [apply placed_AO | apply placed_AI]. }
  destruct (varType =? "LA")%string.
  { match goal with
    | |- context [if ?b then CatDO else CatDI] => destruct b
    end; [apply placed_DO | apply placed_DI]. }
  destruct (varType =? "AO")%string; [apply placed_AO|].
  destruct (varType =? "DO")%string; [apply placed_DO|].
  reflexivity.
Qed.

Lemma scanLine2_effect (text : string) (st : Process V2_2.Config) :
  V2_2.scanLine spares text st = st
  \/ exists c x y, PlacedIn c x y st (V2_2.scanLine spares text st).
Proof.
  unfold V2_2.scanLine.
  destruct (negb (HasPrefix (TrimSpace text) "SIG=")); [now left|].
  destruct (FindStringSubmatch (TrimSpace text)) as [[n t]|]; [|now left].
  pose proof (classify2_spec n t st) as H.
  destruct (direction2 n t) as [c|]; [right; eauto | now left].
Qed.

Lemma scanLine2_mirror (text : string) (st : Process V2_2.Config) :
  Mirrored st -> Mirrored (V2_2.scanLine spares text st).
Proof.
  intros M. destruct (scanLine2_effect text st) as [E | (c & x & y & HP)].
  - now rewrite E.
  - eapply placed_keeps_mirror; eauto.
Qed.

Lemma scanLoop2_mirror (lines : list string) (st : Process V2_2.Config) :
  Mirrored st -> Mirrored (V2_2.scanLoop spares lines st).
Proof.
  revert st. induction lines as [|text lines IH]; intros st M; simpl.
  - exact M.
  - apply IH, scanLine2_mirror, M.
Qed.

Lemma classify2_append (c : Category) (varName varType : string)
  (st st0 : Process V2_2.Config) :
  listOf c (V2_2.classify spares varName varType st)
  = listOf c st
    ++ listOf c (V2_2.classify spares varName varType (resetLists st0)).
Proof.
  unfold V2_2.classify.
  repeat match goal with
         | |- context [if ?b then _ else _] => destruct b
         end; destruct c; simpl; rewrite ?app_nil_r; reflexivity.
Qed.

Lemma scanLine2_append (c : Category) (text : string)
  (st st0 : Process V2_2.Config) :
  listOf c (V2_2.scanLine spares text st)
  = listOf c st ++ listOf c (V2_2.scanLine spares text (resetLists st0)).
Proof.
  unfold V2_2.scanLine.
  destruct (negb (HasPrefix (TrimSpace text) "SIG="));
    [destruct c; simpl; now rewrite app_nil_r|].
  destruct (FindStringSubmatch (TrimSpace text)) as [[n t]|];
    [apply classify2_append | destruct c; simpl; now rewrite app_nil_r].
Qed.

Lemma scanLoop2_flat_map (c : Category) (lines : list string)
  (st st0 : Process V2_2.Config) :
  listOf c (V2_2.scanLoop spares lines st)
  = listOf c st
    ++ flat_map
         (fun text => listOf c (V2_2.scanLine spares text (resetLists st0)))
         lines.
Proof.
  revert st. induction lines as [|text lines IH]; intros st; simpl.
  - now rewrite app_nil_r.
  - rewrite IH, (scanLine2_append c text st st0), app_assoc. reflexivity.
Qed.

End FixedIteration.

(** * The claims *)

(** C1 — mirror invariant.  When [processSigFile] has opened its file,
    in both iterations and for every configuration, prior state and file
    content, the lists it leaves satisfy [len(AI) = len(AO)] and
    [len(DI) = len(DO)]; and every line either leaves the four lists as
    they are or appends exactly one entry to each of the two lists of one
    family, the two lists of the other family being untouched. *)
Theorem C1_mirror_invariant :
  forall (engine : RegexpEngine) (fs : FileSystem) (path : string)
         (file : ScannedFile)
         (st3 : Process V3_2.Config) (st2 : Process V2_2.Config),
    os_Open fs path = inl file ->
    Mirrored (fst (V3_2.processSigFile fs path st3))
    /\ Mirrored (fst (V2_2.processSigFile fs path st2))
    /\ (forall spares rules text (s : Process V3_2.Config),
           V3_2.scanLine spares rules text s = s
           \/ exists c x y,
               PlacedIn c x y s (V3_2.scanLine spares rules text s))
    /\ (forall spares text (s : Process V2_2.Config),
           V2_2.scanLine spares text s = s
           \/ exists c x y, PlacedIn c x y s (V2_2.scanLine spares text s)).
Proof.
  intros engine fs path file st3 st2 Hopen.
  unfold V3_2.processSigFile, V2_2.processSigFile. rewrite Hopen. simpl.
  repeat split.
  - apply scanLoop3_mirror. split; reflexivity.
  - apply scanLoop3_mirror. split; reflexivity.
  - apply scanLoop2_mirror. split; reflexivity.
  - apply scanLoop2_mirror. split; reflexivity.
  - intros. apply scanLine3_effect.
  - intros. apply scanLine2_effect.
Qed.

Lemma C1_mirror_invariant_witness :
  os_Open (fileOf sampleLines) "NODE.SIG" = inl (mkScanned sampleLines None)
  /\ Mirrored
       (fst (@V3_2.processSigFile literalEngine (fileOf sampleLines)
               "NODE.SIG" (leftover (sampleConfig3 ["LIT"] ["_CMD"]))))
  /\ Mirrored
       (fst (V2_2.processSigFile (fileOf sampleLines) "NODE.SIG"
               (leftover sampleConfig2))).
Proof.
  split; [reflexivity|].
  pose proof
    (@C1_mirror_invariant literalEngine (fileOf sampleLines) "NODE.SIG"
       (mkScanned sampleLines None)
       (leftover (sampleConfig3 ["LIT"] ["_CMD"])) (leftover sampleConfig2)
       eq_refl) as (H3 & H2 & _).
  split; assumption.
Defined.

(** A declaration line that yields a pair is handed to [classify]. *)
Lemma scanLine3_extract {engine : RegexpEngine} (spares : SparesT)
  (rules : V3_2.ClassificationT) (text varName varType : string)
  (st : Process V3_2.Config) :
  extract text = Some (varName, varType) ->
  V3_2.scanLine spares rules text st
  = V3_2.classify spares rules varName varType st.
Proof.
  unfold extract, isDeclaration, V3_2.scanLine. intros H.
  destruct (HasPrefix (TrimSpace text) "SIG="); [|discriminate].
  simpl. now rewrite H.
Qed.

Lemma scanLine2_extract (spares : SparesT) (text varName varType : string)
  (st : Process V2_2.Config) :
  extract text = Some (varName, varType) ->
  V2_2.scanLine spares text st = V2_2.classify spares varName varType st.
Proof.
  unfold extract, isDeclaration, V2_2.scanLine. intros H.
  destruct (HasPrefix (TrimSpace text) "SIG="); [|discriminate].
  simpl. now rewrite H.
Qed.

Lemma placed_changes {C} (c : Category) (x y : string) (st : Process C) :
  ~ PlacedIn c x y st st.
Proof.
  intros (H & _). apply (f_equal (@length string)) in H.
  rewrite length_app in H. simpl in H. lia.
Qed.

(** C2 — coverage, as the code has it.  A declaration line that matches
    the extraction pattern contributes one pair of entries exactly when its
    type tag is one the iteration classifies; with any other tag it
    contributes nothing.  For a classified tag the canonical reference is
    appended to exactly one list.  In the regex iteration the paired list
    receives the annotated spare, which differs from the reference; in the
    earlier iteration the paired list receives the bare spare, or the
    reference again when an analog point is found to be an output. *)
Theorem C2_coverage_of_classified_tags :
  forall (engine : RegexpEngine) (spares : SparesT)
         (rules : V3_2.ClassificationT) (text varName varType : string)
         (st3 : Process V3_2.Config) (st2 : Process V2_2.Config),
    extract text = Some (varName, varType) ->
    (if recognised3 varType then
       exists c,
         direction3 rules varName varType = Some c
         /\ PlacedIn c (canonical varName)
              (Sprintf_s_paren_s (spareOf spares (paired c)) varName)
              st3 (V3_2.scanLine spares rules text st3)
         /\ Sprintf_s_paren_s (spareOf spares (paired c)) varName
            <> canonical varName
     else V3_2.scanLine spares rules text st3 = st3)
    /\ (if recognised2 varType then
          exists c,
            direction2 varName varType = Some c
            /\ PlacedIn c (canonical varName)
                 (mirror2 spares varName varType c)
                 st2 (V2_2.scanLine spares text st2)
        else V2_2.scanLine spares text st2 = st2).
Proof.
  intros engine spares rules text n t st3 st2 H. split.
  - rewrite (scanLine3_extract spares rules text st3 H).
    pose proof (classify3_spec spares rules n t st3) as S.
    pose proof (direction3_recognised rules n t) as R.
    destruct (direction3 rules n t) as [c|].
    + replace (recognised3 t) with true
        by (symmetry; apply R; discriminate).
      exists c. repeat split; try apply S.
      apply annotated_spare_not_canonical.
    + destruct (recognised3 t); [|exact S].
      exfalso. apply (proj2 R); reflexivity.
  - rewrite (scanLine2_extract spares text st2 H).
    pose proof (classify2_spec spares n t st2) as S.
    pose proof (direction2_recognised n t) as R.
    destruct (direction2 n t) as [c|].
    + replace (recognised2 t) with true
        by (symmetry; apply R; discriminate).
      exists c. repeat split; apply S.
    + destruct (recognised2 t); [|exact S].
      exfalso. apply (proj2 R); reflexivity.
Qed.

Lemma C2_coverage_of_classified_tags_witness :
  extract "  SIG=@GV.VALVE1_CMD   TYPE=LA" = Some ("VALVE1_CMD", "LA")
  /\ (exists c,
         @direction3 literalEngine (V3_2.mkClassification ["LIT"] ["_CMD"])
           "VALVE1_CMD" "LA" = Some c
         /\ PlacedIn c "@GV.VALVE1_CMD"
              (Sprintf_s_paren_s (spareOf sampleSpares (paired c))
                 "VALVE1_CMD")
              (leftover (sampleConfig3 ["LIT"] ["_CMD"]))
              (@V3_2.scanLine literalEngine sampleSpares
                 (V3_2.mkClassification ["LIT"] ["_CMD"])
                 "  SIG=@GV.VALVE1_CMD   TYPE=LA"
                 (leftover (sampleConfig3 ["LIT"] ["_CMD"])))
         /\ Sprintf_s_paren_s (spareOf sampleSpares (paired c)) "VALVE1_CMD"
            <> "@GV.VALVE1_CMD").
Proof.
  split; [reflexivity|].
  exact (proj1
           (@C2_coverage_of_classified_tags literalEngine sampleSpares
              (V3_2.mkClassification ["LIT"] ["_CMD"])
              "  SIG=@GV.VALVE1_CMD   TYPE=LA" "VALVE1_CMD" "LA"
              (leftover (sampleConfig3 ["LIT"] ["_CMD"]))
              (leftover sampleConfig2) eq_refl)).
Defined.

(** C2, as stated, fails: the declaration line [SIG=@GV.X TYPE=ZZ]
    matches the extraction pattern and contributes no entry, in either
    iteration. *)
Lemma C2_counterexample :
  isDeclaration "SIG=@GV.X TYPE=ZZ" = true
  /\ FindStringSubmatch (TrimSpace "SIG=@GV.X TYPE=ZZ") = Some ("X", "ZZ")
  /\ @V3_2.scanLine literalEngine sampleSpares
       (V3_2.mkClassification ["LIT"] ["_CMD"]) "SIG=@GV.X TYPE=ZZ"
       (startWith (sampleConfig3 ["LIT"] ["_CMD"]) [])
     = startWith (sampleConfig3 ["LIT"] ["_CMD"]) []
  /\ V2_2.scanLine sampleSpares "SIG=@GV.X TYPE=ZZ"
       (startWith sampleConfig2 [])
     = startWith sampleConfig2 []
  /\ ~ (exists c entry mirror,
           PlacedIn c entry mirror
             (startWith (sampleConfig3 ["LIT"] ["_CMD"]) [])
             (@V3_2.scanLine literalEngine sampleSpares
                (V3_2.mkClassification ["LIT"] ["_CMD"])
                "SIG=@GV.X TYPE=ZZ"
                (startWith (sampleConfig3 ["LIT"] ["_CMD"]) []))).
Proof.
  repeat split; try reflexivity.
  intros (c & entry & mirror & H). exact (placed_changes H).
Qed.

(** C3 — mirroring, as the code has it.  In the regex iteration every
    classified point has its canonical reference appended to the list of
    the chosen direction and the spare of the opposite list, annotated with
    the point's name, appended to the opposite list of the same family;
    that annotated spare is never the reference itself.  In the earlier
    iteration the opposite list receives the bare configured spare, except
    for an analog point (tag AA or AAR) found to be an output: there the
    reference is appended to both AO and AI. *)
Theorem C3_mirroring :
  forall (engine : RegexpEngine) (spares : SparesT)
         (rules : V3_2.ClassificationT) (varName varType : string)
         (st3 : Process V3_2.Config) (st2 : Process V2_2.Config),
    match direction3 rules varName varType with
    | Some c =>
        PlacedIn c (canonical varName)
          (Sprintf_s_paren_s (spareOf spares (paired c)) varName)
          st3 (V3_2.classify spares rules varName varType st3)
        /\ Sprintf_s_paren_s (spareOf spares (paired c)) varName
           <> canonical varName
    | None => V3_2.classify spares rules varName varType st3 = st3
    end
    /\ (if analogTag2 varType && analogOutput2 varName then
          PlacedIn CatAO (canonical varName) (canonical varName)
            st2 (V2_2.classify spares varName varType st2)
        else
          match direction2 varName varType with
          | Some c =>
              PlacedIn c (canonical varName) (spareOf spares (paired c))
                st2 (V2_2.classify spares varName varType st2)
          | None => V2_2.classify spares varName varType st2 = st2
          end).
Proof.
  intros engine spares rules n t st3 st2. split.
  - pose proof (classify3_spec spares rules n t st3) as S.
    destruct (direction3 rules n t) as [c|]; [|exact S].
    split; [exact S | apply annotated_spare_not_canonical].
  - pose proof (classify2_spec spares n t st2) as S.
    unfold direction2, mirror2 in *.
    destruct (analogTag2 t); simpl in *; [|exact S].
    destruct (analogOutput2 n); exact S.
Qed.

(** C3, as stated, fails in the earlier iteration: [LIT1_H_H] with tag AA
    is found to be an output, and the opposite list AI receives the
    reference itself, not a spare. *)
Lemma C3_counterexample :
  direction2 "LIT1_H_H" "AA" = Some CatAO
  /\ ListAO (V2_2.scanLine sampleSpares "SIG=@GV.LIT1_H_H TYPE=AA"
               (startWith sampleConfig2 []))
     = ["@GV.LIT1_H_H"]
  /\ ListAI (V2_2.scanLine sampleSpares "SIG=@GV.LIT1_H_H TYPE=AA"
               (startWith sampleConfig2 []))
     = ["@GV.LIT1_H_H"]
  /\ ~ (ListAI (V2_2.scanLine sampleSpares "SIG=@GV.LIT1_H_H TYPE=AA"
                  (startWith sampleConfig2 []))
        = [spareOf sampleSpares CatAI]).
Proof.
  repeat split; try reflexivity. discriminate.
Qed.

(** C4 — explicit output tags.  A point whose tag is exactly AO (DO) is
    appended to AO (DO) and the spare of AI (DI) is mirrored into AI (DI),
    whatever the pattern lists and the engine are; the result does not
    mention them.  The line [SIG=@GV.PUMP2 TYPE=AO] puts [@GV.PUMP2] in AO
    and the spare in AI, in both iterations. *)
Theorem C4_explicit_output_tags :
  forall (engine : RegexpEngine) (spares : SparesT)
         (rules : V3_2.ClassificationT) (varName : string)
         (st3 : Process V3_2.Config) (st2 : Process V2_2.Config),
    V3_2.classify spares rules varName "AO" st3
    = appendAI (Sprintf_s_paren_s (AI spares) varName)
        (appendAO (canonical varName) st3)
    /\ V3_2.classify spares rules varName "DO" st3
       = appendDI (Sprintf_s_paren_s (DI spares) varName)
           (appendDO (canonical varName) st3)
    /\ V2_2.classify spares varName "AO" st2
       = appendAI (AI spares) (appendAO (canonical varName) st2)
    /\ V2_2.classify spares varName "DO" st2
       = appendDI (DI spares) (appendDO (canonical varName) st2)
    /\ V3_2.scanLine spares rules "SIG=@GV.PUMP2 TYPE=AO" st3
       = appendAI (AI spares ++ "(PUMP2)")%string
           (appendAO "@GV.PUMP2" st3)
    /\ V2_2.scanLine spares "SIG=@GV.PUMP2 TYPE=AO" st2
       = appendAI (AI spares) (appendAO "@GV.PUMP2" st2)
    /\ (forall path,
           let st' :=
             fst (V3_2.processSigFile
                    (fileOf ["SIG=@GV.PUMP2 TYPE=AO"]) path st3) in
           ListAO st' = ["@GV.PUMP2"]
           /\ ListAI st'
              = [(AI (V3_2.Spares (V3_2.App (GlobalConfig st3)))
                  ++ "(PUMP2)")%string]
           /\ ListDO st' = [] /\ ListDI st' = [])
    /\ (forall path,
           let st' :=
             fst (V2_2.processSigFile
                    (fileOf ["SIG=@GV.PUMP2 TYPE=AO"]) path st2) in
           ListAO st' = ["@GV.PUMP2"]
           /\ ListAI st' = [AI (V2_2.Spares (V2_2.App (GlobalConfig st2)))]
           /\ ListDO st' = [] /\ ListDI st' = []).
Proof.
  intros engine spares rules n st3 st2.
  assert (T3 : forall sp r (s : Process V3_2.Config),
             V3_2.scanLine sp r "SIG=@GV.PUMP2 TYPE=AO" s
             = appendAI (AI sp ++ "(PUMP2)")%string
                 (appendAO "@GV.PUMP2" s)) by reflexivity.
  assert (T2 : forall sp (s : Process V2_2.Config),
             V2_2.scanLine sp "SIG=@GV.PUMP2 TYPE=AO" s
             = appendAI (AI sp) (appendAO "@GV.PUMP2" s)) by reflexivity.
  repeat apply conj; try reflexivity.
  - intros path. unfold V3_2.processSigFile. simpl os_Open. cbv iota.
    unfold V3_2.scanLoop. simpl Lines. simpl fold_left. rewrite T3.
    repeat split.
  - intros path. unfold V2_2.processSigFile. simpl os_Open. cbv iota.
    unfold V2_2.scanLoop. simpl Lines. simpl fold_left. rewrite T2.
    repeat split.
Qed.

(** ** Pattern lists *)

Section PatternLists.

Context {engine : RegexpEngine}.

(** [isMatchRegex] is the disjunction of the single matches. *)
Lemma isMatchRegex_existsb (name : string) (patterns : list string) :
  V3_2.isMatchRegex name patterns
  = existsb (fun p => fst (regexp_MatchString p name)) patterns.
Proof.
  induction patterns as [|p rest IH]; simpl; [reflexivity|].
  destruct (regexp_MatchString p name) as [matched err]; simpl.
  destruct matched; [reflexivity | exact IH].
Qed.

(** A pattern that does not compile matches nothing. *)
Lemma invalid_never_matches (p name : string) :
  Compile p = None -> fst (regexp_MatchString p name) = false.
Proof. unfold regexp_MatchString. intros ->. reflexivity. Qed.

Lemma existsb_permutation {A} (f : A -> bool) (l l' : list A) :
  Permutation l l' -> existsb f l = existsb f l'.
Proof.
  induction 1 as [|x l l' _ IH|x y l|l l' l'' _ IH1 _ IH2]; simpl.
  - reflexivity.
  - now rewrite IH.
  - destruct (f x), (f y); reflexivity.
  - now rewrite IH1.
Qed.

(** [processSigFile] writes nothing to the log. *)
Lemma processSigFile3_log (fs : FileSystem) (path : string)
  (st : Process V3_2.Config) :
  LogOutput (fst (V3_2.processSigFile fs path st)) = LogOutput st.
Proof.
  unfold V3_2.processSigFile.
  destruct (os_Open fs path) as [file|err]; simpl; [|reflexivity].
  now rewrite (proj2 (scanLoop3_frame _ _ _ _)).
Qed.

End PatternLists.

(** Removing a pattern that does not compile changes no decision. *)
Lemma isMatchRegex_drop_invalid {engine : RegexpEngine}
  (name p : string) (before after : list string) :
  Compile p = None ->
  V3_2.isMatchRegex name (before ++ p :: after)
  = V3_2.isMatchRegex name (before ++ after).
Proof.
  intros Hp. rewrite !isMatchRegex_existsb, !existsb_app. simpl.
  now rewrite (invalid_never_matches p name Hp).
Qed.

Lemma classify3_drop_invalid {engine : RegexpEngine} (spares : SparesT)
  (p : string) (ba aa bd ad : list string) (varName varType : string)
  (st : Process V3_2.Config) :
  Compile p = None ->
  V3_2.classify spares
    (V3_2.mkClassification (ba ++ p :: aa) (bd ++ p :: ad))
    varName varType st
  = V3_2.classify spares (V3_2.mkClassification (ba ++ aa) (bd ++ ad))
      varName varType st.
Proof.
  intros Hp. unfold V3_2.classify.
  cbn [V3_2.AnalogRegex V3_2.DigitalRegex].
  rewrite (@isMatchRegex_drop_invalid engine varName p ba aa Hp).
  rewrite (@isMatchRegex_drop_invalid engine varName p bd ad Hp).
  reflexivity.
Qed.

Lemma scanLoop3_drop_invalid {engine : RegexpEngine} (spares : SparesT)
  (p : string) (ba aa bd ad : list string) (lines : list string)
  (st : Process V3_2.Config) :
  Compile p = None ->
  V3_2.scanLoop spares
    (V3_2.mkClassification (ba ++ p :: aa) (bd ++ p :: ad)) lines st
  = V3_2.scanLoop spares (V3_2.mkClassification (ba ++ aa) (bd ++ ad))
      lines st.
Proof.
  intros Hp. revert st.
  induction lines as [|text lines IH]; intros st; [reflexivity|].
  cbn [V3_2.scanLoop fold_left].
  assert (E : V3_2.scanLine spares
                (V3_2.mkClassification (ba ++ p :: aa) (bd ++ p :: ad))
                text st
              = V3_2.scanLine spares
                  (V3_2.mkClassification (ba ++ aa) (bd ++ ad)) text st).
  { unfold V3_2.scanLine.
    destruct (negb (HasPrefix (TrimSpace text) "SIG=")); [reflexivity|].
    destruct (FindStringSubmatch (TrimSpace text)) as [[n t]|];
      [|reflexivity].
    now apply classify3_drop_invalid. }
  rewrite E. apply IH.
Qed.

(** C5 — invalid patterns, as the code has it.  A pattern that does not
    compile is an unconditional non-match: alone it matches no name, and
    wherever it stands in the analog or the digital list, the decision of
    the list, the classification of every point of every tag, and the
    lists a whole scan leaves are those obtained with the pattern
    removed.  Evaluation goes on after it: a later pattern that matches
    makes an analog-family point an output of AO and a digital-family
    point an output of DO.  The run completes ([__lists.ini] is written
    when the file can be read and the list file created and written).
    The error is dropped silently: [processSigFile] adds nothing to the
    log, and the log of the run holds the two progress lines of [main] and
    nothing else. *)
Theorem C5_invalid_pattern_is_silent_non_match :
  forall (engine : RegexpEngine) (fs : FileSystem) (sigFile base : string)
         (file : ScannedFile) (st : Process V3_2.Config)
         (spares : SparesT) (name varType p : string),
    Compile p = None ->
    os_Open fs sigFile = inl file ->
    ScanErr file = None ->
    os_Create fs ListFile = None ->
    (forall text, file_Flush fs ListFile text = None) ->
    V3_2.isMatchRegex name [p] = false
    /\ (forall before after,
           V3_2.isMatchRegex name (before ++ p :: after)
           = V3_2.isMatchRegex name (before ++ after))
    /\ (forall ba aa bd ad (s : Process V3_2.Config),
           V3_2.classify spares
             (V3_2.mkClassification (ba ++ p :: aa) (bd ++ p :: ad))
             name varType s
           = V3_2.classify spares
               (V3_2.mkClassification (ba ++ aa) (bd ++ ad))
               name varType s)
    /\ (forall ba aa bd ad lines (s : Process V3_2.Config),
           V3_2.scanLoop spares
             (V3_2.mkClassification (ba ++ p :: aa) (bd ++ p :: ad))
             lines s
           = V3_2.scanLoop spares
               (V3_2.mkClassification (ba ++ aa) (bd ++ ad)) lines s)
    /\ (forall before after digital q (s : Process V3_2.Config),
           In q after ->
           fst (regexp_MatchString q name) = true ->
           Contains varType "AA" || Contains varType "REAL" = true ->
           V3_2.classify spares
             (V3_2.mkClassification (before ++ p :: after) digital)
             name varType s
           = appendAI (Sprintf_s_paren_s (AI spares) name)
               (appendAO (canonical name) s))
    /\ (forall analog before after q (s : Process V3_2.Config),
           In q after ->
           fst (regexp_MatchString q name) = true ->
           Contains varType "AA" || Contains varType "REAL" = false ->
           Contains varType "LA" || Contains varType "BOOL" = true ->
           V3_2.classify spares
             (V3_2.mkClassification analog (before ++ p :: after))
             name varType s
           = appendDI (Sprintf_s_paren_s (DI spares) name)
               (appendDO (canonical name) s))
    /\ LogOutput (fst (V3_2.processSigFile fs sigFile st)) = LogOutput st
    /\ (exists text,
           snd (V3_2.mainProcess fs sigFile base st) = V3_2.Written text)
    /\ LogOutput (fst (V3_2.mainProcess fs sigFile base st))
       = LogOutput st
         ++ [("Procesando: " ++ base)%string; "Generando __lists.ini..."].
Proof.
  intros engine fs sigFile base file st spares name varType p
    Hp Hopen Hscan Hcreate Hflush.
  assert (Later : forall before after q,
             In q after -> fst (regexp_MatchString q name) = true ->
             V3_2.isMatchRegex name (before ++ p :: after) = true).
  { intros before after q Hq Hm.
    rewrite isMatchRegex_existsb. apply existsb_exists.
    exists q. split; [|exact Hm].
    apply in_or_app. right. right. exact Hq. }
  repeat apply conj.
  - rewrite isMatchRegex_existsb. simpl.
    now rewrite (invalid_never_matches p name Hp).
  - intros before after. now apply isMatchRegex_drop_invalid.
  - intros ba aa bd ad s. now apply classify3_drop_invalid.
  - intros ba aa bd ad lines s. now apply scanLoop3_drop_invalid.
  - intros before after digital q s Hq Hm Hty.
    unfold V3_2.classify, canonical. rewrite Hty.
    cbn [V3_2.AnalogRegex]. now rewrite (Later before after q Hq Hm).
  - intros analog before after q s Hq Hm Hna Hty.
    unfold V3_2.classify, canonical. rewrite Hna, Hty.
    cbn [V3_2.DigitalRegex]. now rewrite (Later before after q Hq Hm).
  - apply processSigFile3_log.
  - unfold V3_2.mainProcess, V3_2.processSigFile, V3_2.generateListsFile.
    rewrite Hopen, Hscan, Hcreate, Hflush. simpl. eexists. reflexivity.
  - unfold V3_2.mainProcess, V3_2.processSigFile, V3_2.generateListsFile.
    rewrite Hopen, Hscan, Hcreate, Hflush. simpl.
    match goal with
    | |- context [V3_2.scanLoop ?sp ?r ?l ?s] =>
        rewrite (proj2 (scanLoop3_frame sp r l s))
    end.
    simpl. rewrite <- app_assoc. reflexivity.
Qed.

Lemma C5_invalid_pattern_is_silent_non_match_witness :
  @Compile literalEngine "(" = None
  /\ @V3_2.isMatchRegex literalEngine "FT041" ["("] = false
  /\ @V3_2.classify literalEngine sampleSpares
       (V3_2.mkClassification ["("] ["("]) "FT041" "AA"
       (startWith (sampleConfig3 ["("] ["("]) [])
     = @V3_2.classify literalEngine sampleSpares
         (V3_2.mkClassification [] []) "FT041" "AA"
         (startWith (sampleConfig3 ["("] ["("]) [])
  /\ @V3_2.classify literalEngine sampleSpares
       (V3_2.mkClassification ["SP"; "("; "FT0"] []) "FT041" "AA"
       (startWith (sampleConfig3 ["("] ["("]) [])
     = appendAI "SPARE_AI(FT041)"
         (appendAO "@GV.FT041" (startWith (sampleConfig3 ["("] ["("]) []))
  /\ LogOutput
       (fst (@V3_2.mainProcess literalEngine
               (fileOf ["SIG=@GV.FT041 TYPE=AA"]) "NODE.SIG" "NODE.SIG"
               (leftover (sampleConfig3 ["("] ["("]))))
     = ["earlier log line"; "Procesando: NODE.SIG";
        "Generando __lists.ini..."].
Proof.
  pose proof
    (@C5_invalid_pattern_is_silent_non_match literalEngine
       (fileOf ["SIG=@GV.FT041 TYPE=AA"]) "NODE.SIG" "NODE.SIG"
       (mkScanned ["SIG=@GV.FT041 TYPE=AA"] None)
       (leftover (sampleConfig3 ["("] ["("]))
       sampleSpares "FT041" "AA" "("
       eq_refl eq_refl eq_refl eq_refl (fun _ => eq_refl))
    as (Alone & _ & Drop & _ & Later & _ & _ & _ & L).
  split; [reflexivity|].
  split; [exact Alone|].
  split; [exact (Drop [] [] [] [] _)|].
  split; [|exact L].
  exact (Later ["SP"] ["FT0"] [] "FT0" _ (or_introl eq_refl) eq_refl eq_refl).
Defined.

(** C5, as stated, fails on the warning: with the uncompilable pattern
    ["("] in the analog list, evaluated for [LIT1_H_H], the run completes
    and classifies the point through the later pattern, and its log holds
    only the two progress lines of [main]; [processSigFile] logs
    nothing. *)
Lemma C5_counterexample :
  @Compile literalEngine "(" = None
  /\ ListAO
       (fst (@V3_2.processSigFile literalEngine
               (fileOf ["SIG=@GV.LIT1_H_H TYPE=AA"]) "NODE.SIG"
               (startWith (sampleConfig3 ["("; "H_H"] []) [])))
     = ["@GV.LIT1_H_H"]
  /\ LogOutput
       (fst (@V3_2.processSigFile literalEngine
               (fileOf ["SIG=@GV.LIT1_H_H TYPE=AA"]) "NODE.SIG"
               (startWith (sampleConfig3 ["("; "H_H"] []) [])))
     = []
  /\ LogOutput
       (fst (@V3_2.mainProcess literalEngine
               (fileOf ["SIG=@GV.LIT1_H_H TYPE=AA"]) "NODE.SIG" "NODE.SIG"
               (startWith (sampleConfig3 ["("; "H_H"] []) [])))
     = ["Procesando: NODE.SIG"; "Generando __lists.ini..."].
Proof.
  repeat split; reflexivity.
Qed.

(** ** The list file *)

Lemma concat_cons (x : string) (xs : list string) :
  String.concat "" (x :: xs) = (x ++ String.concat "" xs)%string.
Proof.
  destruct xs as [|y ys]; simpl; [now rewrite append_empty_r | reflexivity].
Qed.

(** The loop of [write] adds the entries, each followed by a new line, in
    the order of the list. *)
Lemma write_items (items : list string) (w : string) :
  fold_left (fun acc item => (acc ++ item ++ nl)%string) items w
  = (w ++ String.concat "" (map (fun item => item ++ nl) items))%string.
Proof.
  revert w. induction items as [|x items IH]; intros w.
  - simpl. now rewrite append_empty_r.
  - cbn [fold_left map]. rewrite IH, concat_cons, !append_assoc.
    reflexivity.
Qed.

Lemma write_section (code title : string) (items : list string)
  (w : string) :
  write code title items w = (w ++ sectionText code title items)%string.
Proof.
  unfold write, sectionText. rewrite write_items, !append_assoc.
  reflexivity.
Qed.

(** C6 — the list file, as the code has it.  [generateListsFile] fails
    only if the file cannot be created or written; otherwise it writes
    exactly four sections, each a header [*LIST <code>   '<title>'] with
    the fixed code and title of its category, the entries of the list one
    per line in list order, and one blank line.  The regex iteration
    writes them in the order AI, AO, DI, DO; the earlier iteration in the
    order DO, DI, AO, AI. *)
Theorem C6_list_file_format :
  forall (fs : FileSystem)
         (st3 : Process V3_2.Config) (st2 : Process V2_2.Config),
    let text3 :=
      (sectionAI st3 ++ sectionAO st3 ++ sectionDI st3 ++ sectionDO st3)%string
    in
    let text2 :=
      (sectionDO st2 ++ sectionDI st2 ++ sectionAO st2 ++ sectionAI st2)%string
    in
    V3_2.generateListsFile fs st3
    = match os_Create fs ListFile with
      | Some err => inr err
      | None =>
          match file_Flush fs ListFile text3 with
          | Some err => inr err
          | None => inl text3
          end
      end
    /\ V2_2.generateListsFile fs st2
       = match os_Create fs ListFile with
         | Some err => inr err
         | None =>
             match file_Flush fs ListFile text2 with
             | Some err => inr err
             | None => inl text2
             end
         end.
Proof.
  intros fs st3 st2 text3 text2. subst text3 text2.
  unfold V3_2.generateListsFile, V2_2.generateListsFile,
    sectionAI, sectionAO, sectionDI, sectionDO.
  destruct (os_Create fs ListFile) as [err|]; [split; reflexivity|].
  rewrite !write_section, !append_assoc. split; reflexivity.
Qed.

(** C6, as stated, fails in the earlier iteration: its file starts with
    the section of the digital outputs and ends with the analog inputs. *)
Lemma C6_counterexample :
  let st := fst (V2_2.processSigFile (fileOf sampleLines) "NODE.SIG"
                   (startWith sampleConfig2 [])) in
  V2_2.generateListsFile (fileOf sampleLines) st
  = inl (sectionDO st ++ sectionDI st ++ sectionAO st ++ sectionAI st)%string
  /\ V2_2.generateListsFile (fileOf sampleLines) st
     <> inl (sectionAI st ++ sectionAO st ++ sectionDI st
             ++ sectionDO st)%string.
Proof.
  split; [reflexivity|].
  vm_compute. intros H. discriminate H.
Qed.

(** ** Order of the entries *)

Lemma Subseq_nil_l {A} (l : list A) : Subseq [] l.
Proof. induction l; constructor; assumption. Qed.

Lemma realEntries_subseq (text : string) (contribution : list string) :
  Subseq (realEntries text contribution) contribution.
Proof.
  unfold realEntries. destruct (extract text) as [[n t]|].
  - apply Subseq_filter.
  - apply Subseq_nil_l.
Qed.

(** C7 — order preservation.  When [processSigFile] has opened its file,
    each of the four lists is the concatenation, in the order of the lines
    of the file, of what each line contributes when processed on its own
    from empty lists: nothing is sorted, dropped, merged or moved.  Hence
    the real entries of a list, taken line by line, form a subsequence of
    the list in the order of their lines.  Each line only appends: the
    list before the line is a prefix of the list after it. *)
Theorem C7_order_preservation :
  forall (engine : RegexpEngine) (fs : FileSystem) (path : string)
         (file : ScannedFile) (c : Category)
         (st3 : Process V3_2.Config) (st2 : Process V2_2.Config),
    os_Open fs path = inl file ->
    let spares3 := V3_2.Spares (V3_2.App (GlobalConfig st3)) in
    let rules3 := V3_2.Classification (V3_2.App (GlobalConfig st3)) in
    let spares2 := V2_2.Spares (V2_2.App (GlobalConfig st2)) in
    let alone3 := fun text =>
      listOf c (V3_2.scanLine spares3 rules3 text (resetLists st3)) in
    let alone2 := fun text =>
      listOf c (V2_2.scanLine spares2 text (resetLists st2)) in
    listOf c (fst (V3_2.processSigFile fs path st3))
    = flat_map alone3 (Lines file)
    /\ listOf c (fst (V2_2.processSigFile fs path st2))
       = flat_map alone2 (Lines file)
    /\ Subseq
         (flat_map (fun text => realEntries text (alone3 text)) (Lines file))
         (listOf c (fst (V3_2.processSigFile fs path st3)))
    /\ Subseq
         (flat_map (fun text => realEntries text (alone2 text)) (Lines file))
         (listOf c (fst (V2_2.processSigFile fs path st2)))
    /\ (forall text (s : Process V3_2.Config),
           listOf c (V3_2.scanLine spares3 rules3 text s)
           = listOf c s ++ alone3 text)
    /\ (forall text (s : Process V2_2.Config),
           listOf c (V2_2.scanLine spares2 text s)
           = listOf c s ++ alone2 text).
Proof.
  intros engine fs path file c st3 st2 Hopen spares3 rules3 spares2
    alone3 alone2.
  assert (E3 : listOf c (fst (V3_2.processSigFile fs path st3))
               = flat_map alone3 (Lines file)).
  { unfold V3_2.processSigFile. rewrite Hopen. cbn [fst].
    rewrite (scanLoop3_flat_map _ _ c (Lines file) (resetLists st3) st3).
    destruct c; reflexivity. }
  assert (E2 : listOf c (fst (V2_2.processSigFile fs path st2))
               = flat_map alone2 (Lines file)).
  { unfold V2_2.processSigFile. rewrite Hopen. cbn [fst].
    rewrite (scanLoop2_flat_map _ c (Lines file) (resetLists st2) st2).
    destruct c; reflexivity. }
  repeat apply conj.
  - exact E3.
  - exact E2.
  - rewrite E3. apply Subseq_flat_map. intros text.
    apply realEntries_subseq.
  - rewrite E2. apply Subseq_flat_map. intros text.
    apply realEntries_subseq.
  - intros text s. apply scanLine3_append.
  - intros text s. apply scanLine2_append.
Qed.

Lemma C7_order_preservation_witness :
  os_Open (fileOf sampleLines) "NODE.SIG" = inl (mkScanned sampleLines None)
  /\ ListAI
       (fst (@V3_2.processSigFile literalEngine (fileOf sampleLines)
               "NODE.SIG" (leftover (sampleConfig3 ["LIT"] ["_CMD"]))))
     = flat_map
         (fun text =>
            ListAI (@V3_2.scanLine literalEngine sampleSpares
                      (V3_2.mkClassification ["LIT"] ["_CMD"]) text
                      (resetLists (leftover (sampleConfig3 ["LIT"] ["_CMD"])))))
         sampleLines.
Proof.
  split; [reflexivity|].
  exact (proj1
           (@C7_order_preservation literalEngine (fileOf sampleLines)
              "NODE.SIG" (mkScanned sampleLines None) CatAI
              (leftover (sampleConfig3 ["LIT"] ["_CMD"]))
              (leftover sampleConfig2) eq_refl)).
Defined.

(** C8 — order of the patterns.  The decision of [isMatchRegex] is the
    same for a pattern list and for any permutation of it, for every name
    and every engine, valid and invalid patterns alike; so the
    classification of a point does not change when the analog or the
    digital pattern list is reordered. *)
Theorem C8_pattern_order_irrelevant :
  forall (engine : RegexpEngine) (name : string)
         (analog analog' digital digital' : list string),
    Permutation analog analog' ->
    Permutation digital digital' ->
    V3_2.isMatchRegex name analog = V3_2.isMatchRegex name analog'
    /\ V3_2.isMatchRegex name digital = V3_2.isMatchRegex name digital'
    /\ (forall spares varType (st : Process V3_2.Config),
           V3_2.classify spares (V3_2.mkClassification analog digital)
             name varType st
           = V3_2.classify spares (V3_2.mkClassification analog' digital')
               name varType st).
Proof.
  intros engine name analog analog' digital digital' HA HD.
  assert (EA : V3_2.isMatchRegex name analog
               = V3_2.isMatchRegex name analog').
  { rewrite !isMatchRegex_existsb. apply existsb_permutation, HA. }
  assert (ED : V3_2.isMatchRegex name digital
               = V3_2.isMatchRegex name digital').
  { rewrite !isMatchRegex_existsb. apply existsb_permutation, HD. }
  repeat apply conj; try assumption.
  intros spares varType st. unfold V3_2.classify.
  cbn [V3_2.AnalogRegex V3_2.DigitalRegex]. now rewrite EA, ED.
Qed.

Lemma C8_pattern_order_irrelevant_witness :
  Permutation ["LIT"; "("; "_SP"] ["("; "LIT"; "_SP"]
  /\ @V3_2.isMatchRegex literalEngine "TK1_SP" ["LIT"; "("; "_SP"]
     = @V3_2.isMatchRegex literalEngine "TK1_SP" ["("; "LIT"; "_SP"].
Proof.
  split; [apply perm_swap|].
  exact (proj1
           (@C8_pattern_order_irrelevant literalEngine "TK1_SP"
              ["LIT"; "("; "_SP"] ["("; "LIT"; "_SP"] ["_CMD"] ["_CMD"]
              (perm_swap "(" "LIT" ["_SP"]) (Permutation_refl ["_CMD"]))).
Defined.

(** C9 — lines that are no declaration.  A line that, trimmed, does not
    begin with [SIG=] leaves the whole process state as it was, the four
    lists included, in both iterations; the loop body has no error
    outcome.  [NOTES=random text] is such a line. *)
Theorem C9_other_lines_ignored :
  forall (engine : RegexpEngine) (spares : SparesT)
         (rules : V3_2.ClassificationT) (text : string)
         (st3 : Process V3_2.Config) (st2 : Process V2_2.Config),
    HasPrefix (TrimSpace text) "SIG=" = false ->
    V3_2.scanLine spares rules text st3 = st3
    /\ V2_2.scanLine spares text st2 = st2
    /\ V3_2.scanLine spares rules "NOTES=random text" st3 = st3
    /\ V2_2.scanLine spares "NOTES=random text" st2 = st2.
Proof.
  intros engine spares rules text st3 st2 H.
  unfold V3_2.scanLine, V2_2.scanLine. rewrite H.
  repeat split.
Qed.

Lemma C9_other_lines_ignored_witness :
  HasPrefix (TrimSpace "  NOTES=SIG=@GV.A TYPE=AA ") "SIG=" = false
  /\ @V3_2.scanLine literalEngine sampleSpares
       (V3_2.mkClassification ["LIT"] ["_CMD"])
       "  NOTES=SIG=@GV.A TYPE=AA "
       (leftover (sampleConfig3 ["LIT"] ["_CMD"]))
     = leftover (sampleConfig3 ["LIT"] ["_CMD"]).
Proof.
  split; [reflexivity|].
  exact (proj1
           (@C9_other_lines_ignored literalEngine sampleSpares
              (V3_2.mkClassification ["LIT"] ["_CMD"])
              "  NOTES=SIG=@GV.A TYPE=AA "
              (leftover (sampleConfig3 ["LIT"] ["_CMD"]))
              (leftover sampleConfig2) eq_refl)).
Defined.

(** C10 — the lists are rebuilt from scratch.  When [processSigFile] has
    opened its file, the four lists and the error it returns are the same
    for any two prior states that hold the same configuration, whatever
    the lists held before, in both iterations; over a file without lines
    the four lists are empty. *)
Theorem C10_independent_of_prior_lists :
  forall (engine : RegexpEngine) (fs : FileSystem) (path : string)
         (file : ScannedFile)
         (a3 b3 : Process V3_2.Config) (a2 b2 : Process V2_2.Config),
    os_Open fs path = inl file ->
    GlobalConfig a3 = GlobalConfig b3 ->
    GlobalConfig a2 = GlobalConfig b2 ->
    sameLists (fst (V3_2.processSigFile fs path a3))
      (fst (V3_2.processSigFile fs path b3))
    /\ snd (V3_2.processSigFile fs path a3)
       = snd (V3_2.processSigFile fs path b3)
    /\ sameLists (fst (V2_2.processSigFile fs path a2))
         (fst (V2_2.processSigFile fs path b2))
    /\ snd (V2_2.processSigFile fs path a2)
       = snd (V2_2.processSigFile fs path b2)
    /\ (forall c,
           listOf c (fst (V3_2.processSigFile (fileOf []) path a3)) = []
           /\ listOf c (fst (V2_2.processSigFile (fileOf []) path a2)) = []).
Proof.
  intros engine fs path file a3 b3 a2 b2 Hopen H3 H2.
  repeat apply conj;
    unfold V3_2.processSigFile, V2_2.processSigFile, sameLists;
    rewrite ?Hopen; cbn [fst snd resetLists GlobalConfig];
    rewrite ?H3, ?H2; try reflexivity.
  - intros c.
    rewrite !(scanLoop3_flat_map _ _ c (Lines file) _ a3).
    destruct c; reflexivity.
  - intros c.
    rewrite !(scanLoop2_flat_map _ c (Lines file) _ a2).
    destruct c; reflexivity.
  - intros c. destruct c; split; reflexivity.
Qed.

Lemma C10_independent_of_prior_lists_witness :
  os_Open (fileOf sampleLines) "NODE.SIG" = inl (mkScanned sampleLines None)
  /\ sameLists
       (fst (@V3_2.processSigFile literalEngine (fileOf sampleLines)
               "NODE.SIG" (leftover (sampleConfig3 ["LIT"] ["_CMD"]))))
       (fst (@V3_2.processSigFile literalEngine (fileOf sampleLines)
               "NODE.SIG"
               (startWith (sampleConfig3 ["LIT"] ["_CMD"]) ["old"]))).
Proof.
  split; [reflexivity|].
  exact (proj1
           (@C10_independent_of_prior_lists literalEngine
              (fileOf sampleLines) "NODE.SIG" (mkScanned sampleLines None)
              (leftover (sampleConfig3 ["LIT"] ["_CMD"]))
              (startWith (sampleConfig3 ["LIT"] ["_CMD"]) ["old"])
              (leftover sampleConfig2) (startWith sampleConfig2 ["old"])
              eq_refl eq_refl eq_refl)).
Defined.

(** When the file cannot be opened, [processSigFile] returns the error
    before it touches the lists. *)
Lemma processSigFile_open_error {engine : RegexpEngine} (fs : FileSystem)
  (path err : string)
  (st3 : Process V3_2.Config) (st2 : Process V2_2.Config) :
  os_Open fs path = inr err ->
  V3_2.processSigFile fs path st3 = (st3, Some err)
  /\ V2_2.processSigFile fs path st2 = (st2, Some err).
Proof.
  intros H. unfold V3_2.processSigFile, V2_2.processSigFile.
  rewrite H. split; reflexivity.
Qed.

(** * Further properties of the code *)

(** ** The extraction pattern *)

Lemma prefix_append (p r : string) : String.prefix p (p ++ r) = true.
Proof.
  induction p as [|c p IH]; simpl.
  - destruct r; reflexivity.
  - destruct (ascii_dec c c) as [_|N]; [exact IH | now destruct N].
Qed.

Lemma prefix_split (p s : string) :
  String.prefix p s = true -> s = (p ++ drop (String.length p) s)%string.
Proof.
  revert s. induction p as [|c p IH]; intros s H; simpl.
  - reflexivity.
  - destruct s as [|d s]; simpl in H; [discriminate|].
    destruct (ascii_dec c d) as [->|N]; [|discriminate].
    simpl. f_equal. apply IH, H.
Qed.

Lemma drop_append (p r : string) : drop (String.length p) (p ++ r) = r.
Proof. induction p as [|c p IH]; simpl; [reflexivity | exact IH]. Qed.

(** [span] cuts its argument in two: the first part satisfies the
    predicate throughout and the second does not start with a character
    that does. *)
Lemma span_sound (p : ascii -> bool) (s a b : string) :
  span p s = (a, b) ->
  s = (a ++ b)%string /\ allOf p a = true /\ stopsAt p b = true.
Proof.
  revert a b. induction s as [|c s IH]; intros a b H; simpl in H.
  - inversion H; subst. repeat split.
  - destruct (p c) eqn:Pc.
    + destruct (span p s) as [a' b'] eqn:E. inversion H; subst.
      destruct (IH a' b eq_refl) as (E1 & E2 & E3).
      simpl. rewrite Pc, E2. repeat split; [now f_equal | exact E3].
    + inversion H; subst. simpl. rewrite Pc. repeat split.
Qed.

Lemma span_complete (p : ascii -> bool) (a b : string) :
  allOf p a = true -> stopsAt p b = true -> span p (a ++ b) = (a, b).
Proof.
  intros Ha Hb. induction a as [|c a IH]; simpl in *.
  - destruct b as [|d b]; simpl in *; [reflexivity|].
    apply negb_true_iff in Hb. now rewrite Hb.
  - apply andb_true_iff in Ha as [Pc Ha]. rewrite Pc, (IH Ha). reflexivity.
Qed.

(** White space is no word character, and [T] is no white space. *)
Lemma stopsAt_word_blank (blank rest : string) :
  nonEmpty blank = true -> allOf isReSpace blank = true ->
  stopsAt isWord (blank ++ rest) = true.
Proof.
  destruct blank as [|c blank]; simpl; [discriminate|].
  intros _ H. apply andb_true_iff in H as [H _]. revert H.
  destruct c as [[] [] [] [] [] [] [] []]; vm_compute; congruence.
Qed.

(** What [matchHere] accepts is a declaration at the start of the text. *)
Lemma matchHere_sound (s varName varType : string) :
  matchHere s = Some (varName, varType) ->
  exists blank rest,
    s = declaration varName blank varType rest
    /\ wellFormed varName blank varType rest = true.
Proof.
  unfold matchHere, HasPrefix. intros H.
  destruct (String.prefix "SIG=@GV." s) eqn:P1; [|discriminate].
  apply prefix_split in P1.
  destruct (span isWord (drop 8 s)) as [n afterName] eqn:S1.
  destruct (span isReSpace afterName) as [blank afterBlank] eqn:S2.
  destruct ((String.length n =? 0) || (String.length blank =? 0)) eqn:L;
    [discriminate|].
  apply orb_false_iff in L as [Ln Lb].
  destruct (String.prefix "TYPE=" afterBlank) eqn:P2; [|discriminate].
  apply prefix_split in P2.
  destruct (span isUpper (drop 5 afterBlank)) as [t rest] eqn:S3.
  destruct (String.length t =? 0) eqn:Lt; [discriminate|].
  inversion H; subst n t. clear H.
  apply span_sound in S1 as (E1 & A1 & _).
  apply span_sound in S2 as (E2 & A2 & _).
  apply span_sound in S3 as (E3 & A3 & St).
  exists blank, rest. split.
  - unfold declaration. rewrite P1 at 1. simpl String.length.
    rewrite E1, E2. rewrite P2 at 1. simpl String.length. rewrite E3.
    reflexivity.
  - unfold wellFormed, nonEmpty. now rewrite Ln, Lb, Lt, A1, A2, A3, St.
Qed.

(** X1 — soundness of the extraction.  When the extraction pattern
    matches a line, the line holds, at the place of the match, the text
    [SIG=@GV.<name><white space>TYPE=<tag>]: the name is a non-empty run
    of word characters, the white space is not empty, and the tag is a
    non-empty run of capital letters taken as long as the line allows. *)
Theorem X1_extraction_sound :
  forall (line varName varType : string),
    FindStringSubmatch line = Some (varName, varType) ->
    exists before blank rest,
      line = (before ++ declaration varName blank varType rest)%string
      /\ wellFormed varName blank varType rest = true.
Proof.
  intros line. induction line as [|c line IH]; intros n t H.
  - simpl in H. discriminate.
  - simpl in H. destruct (matchHere (String c line)) as [[n' t']|] eqn:M.
    + inversion H; subst. apply matchHere_sound in M as (blank & rest & E & W).
      exists EmptyString, blank, rest. split; [exact E | exact W].
    + destruct (IH n t H) as (before & blank & rest & E & W).
      exists (String c before), blank, rest. split; [|exact W].
      simpl. now rewrite E.
Qed.

Lemma X1_extraction_sound_witness :
  FindStringSubmatch "SIG=x SIG=@GV.FT041_H_H   TYPE=AA9 more"
  = Some ("FT041_H_H", "AA")
  /\ exists before blank rest,
       "SIG=x SIG=@GV.FT041_H_H   TYPE=AA9 more"
       = (before ++ declaration "FT041_H_H" blank "AA" rest)%string
       /\ wellFormed "FT041_H_H" blank "AA" rest = true.
Proof.
  split; [reflexivity|].
  exact (X1_extraction_sound "SIG=x SIG=@GV.FT041_H_H   TYPE=AA9 more"
           eq_refl).
Defined.

Lemma FindStringSubmatch_here (s : string) (m : string * string) :
  matchHere s = Some m -> FindStringSubmatch s = Some m.
Proof.
  intros H. destruct s; cbn [FindStringSubmatch]; now rewrite H.
Qed.

(** [matchHere] accepts every well-formed declaration. *)
Lemma matchHere_complete (varName blank varType rest : string) :
  wellFormed varName blank varType rest = true ->
  matchHere (declaration varName blank varType rest)
  = Some (varName, varType).
Proof.
  unfold wellFormed, nonEmpty. intros W.
  repeat (apply andb_true_iff in W as [W ?]).
  apply negb_true_iff in W.
  repeat match goal with
         | H : negb _ = true |- _ => apply negb_true_iff in H
         end.
  unfold matchHere, HasPrefix, declaration.
  rewrite prefix_append.
  change 8 with (String.length "SIG=@GV."). rewrite drop_append.
  rewrite (span_complete isWord varName); try assumption.
  2:{ apply stopsAt_word_blank; [unfold nonEmpty|]; try assumption.
      now apply negb_true_iff. }
  rewrite (span_complete isReSpace blank); try assumption;
    [|reflexivity].
  rewrite W.
  match goal with
  | H : (String.length blank =? 0) = false |- _ => rewrite H
  end.
  simpl orb. cbv iota. rewrite prefix_append.
  change 5 with (String.length "TYPE="). rewrite drop_append.
  rewrite (span_complete isUpper varType); try assumption.
  match goal with
  | H : (String.length varType =? 0) = false |- _ => rewrite H
  end.
  reflexivity.
Qed.

(** X2 — completeness of the extraction on declarations.  A line whose
    trimmed text is a well-formed declaration yields exactly the name and
    the tag it was written with, and is handed to the mirror logic with
    them, in both iterations. *)
Theorem X2_extraction_round_trip :
  forall (engine : RegexpEngine) (spares : SparesT)
         (rules : V3_2.ClassificationT)
         (text varName blank varType rest : string)
         (st3 : Process V3_2.Config) (st2 : Process V2_2.Config),
    wellFormed varName blank varType rest = true ->
    TrimSpace text = declaration varName blank varType rest ->
    FindStringSubmatch (declaration varName blank varType rest)
    = Some (varName, varType)
    /\ extract text = Some (varName, varType)
    /\ V3_2.scanLine spares rules text st3
       = V3_2.classify spares rules varName varType st3
    /\ V2_2.scanLine spares text st2
       = V2_2.classify spares varName varType st2.
Proof.
  intros engine spares rules text n blank t rest st3 st2 W T.
  pose proof (FindStringSubmatch_here _ (matchHere_complete _ _ _ _ W)) as F.
  assert (E : extract text = Some (n, t)).
  { unfold extract, isDeclaration, HasPrefix. rewrite T, F.
    unfold declaration.
    change ("SIG=@GV." ++ n ++ blank ++ "TYPE=" ++ t ++ rest)%string
      with ("SIG=" ++ ("@GV." ++ n ++ blank ++ "TYPE=" ++ t ++ rest))%string.
    now rewrite prefix_append. }
  repeat apply conj.
  - exact F.
  - exact E.
  - apply scanLine3_extract, E.
  - apply scanLine2_extract, E.
Qed.

Lemma X2_extraction_round_trip_witness :
  wellFormed "TK1_SP" "  " "AAR" " UNITS=m" = true
  /\ TrimSpace "   SIG=@GV.TK1_SP  TYPE=AAR UNITS=m  "
     = declaration "TK1_SP" "  " "AAR" " UNITS=m"
  /\ extract "   SIG=@GV.TK1_SP  TYPE=AAR UNITS=m  " = Some ("TK1_SP", "AAR").
Proof.
  split; [reflexivity|]. split; [reflexivity|].
  exact (proj1 (proj2
           (@X2_extraction_round_trip literalEngine sampleSpares
              (V3_2.mkClassification ["LIT"] ["_CMD"])
              "   SIG=@GV.TK1_SP  TYPE=AAR UNITS=m  "
              "TK1_SP" "  " "AAR" " UNITS=m"
              (leftover (sampleConfig3 ["LIT"] ["_CMD"]))
              (leftover sampleConfig2) eq_refl eq_refl))).
Defined.


(** ** White space around a line *)

Lemma asciiSpace_small (p : ascii) (k : nat) :
  asciiSpace p = true -> 32 < k -> byteIs p k = false.
Proof.
  unfold asciiSpace, byteIs. intros H K.
  apply Nat.eqb_neq. intro E.
  apply orb_true_iff in H as [H|H].
  - apply andb_true_iff in H as [_ H]. apply Nat.leb_le in H. lia.
  - apply Nat.eqb_eq in H. lia.
Qed.

Lemma asciiSpace_not_high (p : ascii) :
  asciiSpace p = true -> (128 <=? nat_of_ascii p) = false.
Proof.
  unfold asciiSpace. intros H. apply Nat.leb_gt.
  apply orb_true_iff in H as [H|H].
  - apply andb_true_iff in H as [_ H]. apply Nat.leb_le in H. lia.
  - apply Nat.eqb_eq in H. lia.
Qed.

(** A blank byte completes no encoding of a white-space rune. *)
Lemma space2_blank (a p : ascii) : asciiSpace p = true -> space2 a p = false.
Proof.
  intros H. unfold space2.
  rewrite !(asciiSpace_small _ H) by lia. apply andb_false_r.
Qed.

Lemma space3_blank_mid (a p c : ascii) :
  asciiSpace p = true -> space3 a p c = false.
Proof.
  intros H. unfold space3.
  rewrite !(asciiSpace_small _ H) by lia.
  now rewrite !andb_false_r.
Qed.

Lemma space3_blank_last (a b p : ascii) :
  asciiSpace p = true -> space3 a b p = false.
Proof.
  intros H. unfold space3.
  rewrite !(asciiSpace_small _ H) by lia.
  rewrite (asciiSpace_not_high _ H).
  now rewrite !andb_false_r.
Qed.

Lemma TrimLeftSpace_blank (pad rest : string) :
  isBlank pad = true ->
  TrimLeftSpace (pad ++ rest) = TrimLeftSpace rest.
Proof.
  unfold isBlank. induction pad as [|p pad IH]; intros H; [reflexivity|].
  simpl in H. apply andb_true_iff in H as [Hp H].
  cbn [append TrimLeftSpace]. rewrite Hp. apply IH, H.
Qed.

Lemma TrimLeftSpaceRev_blank (pad rest : string) :
  isBlank pad = true ->
  TrimLeftSpaceRev (pad ++ rest) = TrimLeftSpaceRev rest.
Proof.
  unfold isBlank. induction pad as [|p pad IH]; intros H; [reflexivity|].
  simpl in H. apply andb_true_iff in H as [Hp H].
  cbn [append TrimLeftSpaceRev]. rewrite Hp. apply IH, H.
Qed.

(** Blanks after a text only matter to [TrimLeftSpace] by being there. *)
Lemma TrimLeftSpace_pad (n : nat) :
  forall s pad,
    String.length s <= n -> isBlank pad = true ->
    TrimLeftSpace (s ++ pad)
    = match TrimLeftSpace s with
      | EmptyString => EmptyString
      | String c t => (String c t ++ pad)%string
      end.
Proof.
  induction n as [|n IH]; intros s pad L P.
  - destruct s; simpl in L; [|lia]. simpl.
    rewrite <- (append_empty_r pad). now apply TrimLeftSpace_blank.
  - destruct s as [|a s1].
    { simpl. rewrite <- (append_empty_r pad). now apply TrimLeftSpace_blank. }
    simpl in L. cbn [append TrimLeftSpace].
    destruct (asciiSpace a) eqn:Sa; [apply IH; [lia | exact P]|].
    destruct s1 as [|b s2].
    { cbn [append]. destruct pad as [|p pad]; [reflexivity|].
      unfold isBlank in P. simpl in P.
      apply andb_true_iff in P as [Pp P].
      rewrite (@space2_blank a p Pp).
      destruct pad as [|q pad]; [reflexivity|].
      now rewrite (@space3_blank_mid a p q Pp). }
    cbn [append]. simpl in L.
    destruct (space2 a b) eqn:S2; [apply IH; [lia | exact P]|].
    destruct s2 as [|c s3].
    { cbn [append]. destruct pad as [|p pad]; [reflexivity|].
      unfold isBlank in P. simpl in P.
      apply andb_true_iff in P as [Pp P].
      now rewrite (@space3_blank_last a b p Pp). }
    cbn [append]. simpl in L.
    destruct (space3 a b c) eqn:S3; [apply IH; [lia | exact P]|].
    reflexivity.
Qed.

Lemma list_ascii_append (a b : string) :
  list_ascii_of_string (a ++ b)
  = list_ascii_of_string a ++ list_ascii_of_string b.
Proof. induction a as [|c a IH]; simpl; [reflexivity | now rewrite IH]. Qed.

Lemma string_of_list_app (l1 l2 : list ascii) :
  string_of_list_ascii (l1 ++ l2)
  = (string_of_list_ascii l1 ++ string_of_list_ascii l2)%string.
Proof. induction l1 as [|c l1 IH]; simpl; [reflexivity | now rewrite IH]. Qed.

Lemma rev_append (a b : string) :
  Go.rev (a ++ b) = (Go.rev b ++ Go.rev a)%string.
Proof.
  unfold Go.rev.
  now rewrite list_ascii_append, rev_app_distr, string_of_list_app.
Qed.

Lemma allOf_of_list (p : ascii -> bool) (l : list ascii) :
  allOf p (string_of_list_ascii l) = forallb p l.
Proof. induction l as [|c l IH]; simpl; [reflexivity | now rewrite IH]. Qed.

Lemma forallb_list_ascii (p : ascii -> bool) (s : string) :
  forallb p (list_ascii_of_string s) = allOf p s.
Proof. induction s as [|c s IH]; simpl; [reflexivity | now rewrite IH]. Qed.

Lemma forallb_rev (p : ascii -> bool) (l : list ascii) :
  forallb p (List.rev l) = forallb p l.
Proof.
  induction l as [|c l IH]; simpl; [reflexivity|].
  rewrite forallb_app, IH. simpl. rewrite andb_true_r. apply andb_comm.
Qed.

Lemma isBlank_rev (pad : string) : isBlank (Go.rev pad) = isBlank pad.
Proof.
  unfold isBlank, Go.rev.
  now rewrite allOf_of_list, forallb_rev, forallb_list_ascii.
Qed.

Lemma TrimRightSpace_blank (s pad : string) :
  isBlank pad = true -> TrimRightSpace (s ++ pad) = TrimRightSpace s.
Proof.
  intros H. unfold TrimRightSpace.
  rewrite rev_append, TrimLeftSpaceRev_blank; [reflexivity|].
  now rewrite isBlank_rev.
Qed.

Lemma TrimSpace_blank (padL padR s : string) :
  isBlank padL = true -> isBlank padR = true ->
  TrimSpace (padL ++ s ++ padR) = TrimSpace s.
Proof.
  intros HL HR. unfold TrimSpace.
  rewrite (@TrimLeftSpace_blank padL _ HL).
  rewrite (@TrimLeftSpace_pad (String.length s) s padR (le_n _) HR).
  destruct (TrimLeftSpace s) as [|c t]; [reflexivity|].
  now apply TrimRightSpace_blank.
Qed.

(** X3 — white space around a line.  Blanks, tabs, carriage returns and
    the other ASCII white space put in front of a line or behind it change
    neither its trimmed text nor what the loop body does with it, for any
    line and in both iterations. *)
Theorem X3_surrounding_blanks_ignored :
  forall (engine : RegexpEngine) (spares : SparesT)
         (rules : V3_2.ClassificationT) (padL padR text : string)
         (st3 : Process V3_2.Config) (st2 : Process V2_2.Config),
    isBlank padL = true ->
    isBlank padR = true ->
    TrimSpace (padL ++ text ++ padR) = TrimSpace text
    /\ V3_2.scanLine spares rules (padL ++ text ++ padR) st3
       = V3_2.scanLine spares rules text st3
    /\ V2_2.scanLine spares (padL ++ text ++ padR) st2
       = V2_2.scanLine spares text st2.
Proof.
  intros engine spares rules padL padR text st3 st2 HL HR.
  pose proof (@TrimSpace_blank padL padR text HL HR) as T.
  unfold V3_2.scanLine, V2_2.scanLine. rewrite T.
  repeat split.
Qed.

Lemma X3_surrounding_blanks_ignored_witness :
  isBlank "   " = true
  /\ isBlank (String (ascii_of_nat 9) (String (ascii_of_nat 13) "")) = true
  /\ TrimSpace ("   " ++ "SIG=@GV.A TYPE=LA  x"
                ++ String (ascii_of_nat 9) (String (ascii_of_nat 13) ""))
     = TrimSpace "SIG=@GV.A TYPE=LA  x".
Proof.
  split; [reflexivity|]. split; [reflexivity|].
  exact (proj1
           (@X3_surrounding_blanks_ignored literalEngine sampleSpares
              (V3_2.mkClassification ["LIT"] ["_CMD"]) "   "
              (String (ascii_of_nat 9) (String (ascii_of_nat 13) ""))
              "SIG=@GV.A TYPE=LA  x"
              (leftover (sampleConfig3 ["LIT"] ["_CMD"]))
              (leftover sampleConfig2) eq_refl eq_refl)).
Defined.

(** ** Pattern lists, further *)

(** X4 — what [isMatchRegex] decides.  The answer is [true] exactly when
    some pattern of the list compiles and its compiled form matches the
    name; patterns that do not compile and patterns that do not match
    contribute nothing, and an empty list answers [false]. *)
Theorem X4_isMatchRegex_characterised :
  forall (engine : RegexpEngine) (name : string) (patterns : list string),
    V3_2.isMatchRegex name patterns = true
    <-> exists p re,
          In p patterns /\ Compile p = Some re
          /\ reMatchString re name = true.
Proof.
  intros engine name patterns.
  induction patterns as [|q rest IH]; simpl.
  - split; [discriminate | intros (p & re & [] & _)].
  - unfold regexp_MatchString at 1.
    destruct (Compile q) as [rq|] eqn:Cq.
    + destruct (reMatchString rq name) eqn:Mq.
      * split; [|reflexivity]. intros _. exists q, rq. auto.
      * rewrite IH. split.
        -- intros (p & re & I & C & M). exists p, re. auto.
        -- intros (p & re & [E|I] & C & M).
           ++ subst p. rewrite Cq in C. inversion C; subst.
              rewrite Mq in M. discriminate.
           ++ exists p, re. auto.
    + rewrite IH. split.
      * intros (p & re & I & C & M). exists p, re. auto.
      * intros (p & re & [E|I] & C & M).
        -- subst p. rewrite Cq in C. discriminate.
        -- exists p, re. auto.
Qed.

Lemma X4_isMatchRegex_characterised_witness :
  @V3_2.isMatchRegex literalEngine "VALVE1_CMD" ["("; "_WD"; "_CMD"] = true.
Proof.
  apply (proj2 (@X4_isMatchRegex_characterised literalEngine "VALVE1_CMD"
                  ["("; "_WD"; "_CMD"])).
  exists "_CMD", "_CMD". repeat split. simpl. auto.
Defined.

Lemma isMatchRegex_incl {engine : RegexpEngine} (name : string)
  (ps qs : list string) :
  incl ps qs ->
  V3_2.isMatchRegex name ps = true -> V3_2.isMatchRegex name qs = true.
Proof.
  intros I. rewrite !isMatchRegex_existsb, !existsb_exists.
  intros (p & Hp & M). exists p. split; [apply I, Hp | exact M].
Qed.

(** X5 — more patterns, more outputs.  When every pattern of the analog
    list and of the digital list is kept and others are added, a point
    that was an output stays an output, a point that is an input was an
    input before, and no point changes family or becomes classified or
    unclassified. *)
Theorem X5_patterns_monotone :
  forall (engine : RegexpEngine)
         (analog analog' digital digital' : list string)
         (varName varType : string),
    incl analog analog' ->
    incl digital digital' ->
    let before :=
      direction3 (V3_2.mkClassification analog digital) varName varType in
    let after :=
      direction3 (V3_2.mkClassification analog' digital') varName varType in
    (before = Some CatAO -> after = Some CatAO)
    /\ (before = Some CatDO -> after = Some CatDO)
    /\ (after = Some CatAI -> before = Some CatAI)
    /\ (after = Some CatDI -> before = Some CatDI)
    /\ (before = Some CatAI -> after = Some CatAI \/ after = Some CatAO)
    /\ (before = Some CatDI -> after = Some CatDI \/ after = Some CatDO)
    /\ (before = None <-> after = None).
Proof.
  intros engine analog analog' digital digital' n t IA ID before after.
  subst before after. unfold direction3.
  cbn [V3_2.AnalogRegex V3_2.DigitalRegex].
  pose proof (@isMatchRegex_incl engine n analog analog' IA) as MA.
  pose proof (@isMatchRegex_incl engine n digital digital' ID) as MD.
  destruct (Contains t "AA" || Contains t "REAL").
  { destruct (V3_2.isMatchRegex n analog);
      destruct (V3_2.isMatchRegex n analog');
      try (specialize (MA eq_refl); discriminate);
      repeat split; intros; try discriminate; auto. }
  destruct (Contains t "LA" || Contains t "BOOL").
  { destruct (V3_2.isMatchRegex n digital);
      destruct (V3_2.isMatchRegex n digital');
      try (specialize (MD eq_refl); discriminate);
      repeat split; intros; try discriminate; auto. }
  destruct (t =? "AO")%string;
    [repeat split; intros; try discriminate; auto|].
  destruct (t =? "DO")%string;
    repeat split; intros; try discriminate; auto.
Qed.

Lemma X5_patterns_monotone_witness :
  incl ["LIT"] ["_SP"; "LIT"]
  /\ (@direction3 literalEngine (V3_2.mkClassification ["LIT"] [])
        "LIT1_H_H" "AA" = Some CatAO ->
      @direction3 literalEngine (V3_2.mkClassification ["_SP"; "LIT"] [])
        "LIT1_H_H" "AA" = Some CatAO).
Proof.
  assert (I : incl ["LIT"] ["_SP"; "LIT"]).
  { intros x [E|[]]. subst. simpl. auto. }
  split; [exact I|].
  exact (proj1
           (@X5_patterns_monotone literalEngine ["LIT"] ["_SP"; "LIT"] [] []
              "LIT1_H_H" "AA" I (fun x H => H))).
Defined.


(** ** Index alignment of the paired lists *)

Lemma FindStringSubmatch_name (line varName varType : string) :
  FindStringSubmatch line = Some (varName, varType) ->
  nonEmpty varName && allOf isWord varName = true.
Proof.
  induction line as [|c line IH]; intros H.
  - simpl in H. discriminate.
  - cbn [FindStringSubmatch] in H.
    destruct (matchHere (String c line)) as [[n' t']|] eqn:M.
    + inversion H; subst.
      apply matchHere_sound in M as (blank & rest & _ & W).
      unfold wellFormed in W.
      repeat (apply andb_true_iff in W as [W ?]).
      apply andb_true_iff. split; assumption.
    + apply IH, H.
Qed.

Lemma Forall2_snoc {A B} (R : A -> B -> Prop) (l1 : list A) (l2 : list B)
  (a : A) (b : B) :
  Forall2 R l1 l2 -> R a b -> Forall2 R (l1 ++ [a]) (l2 ++ [b]).
Proof.
  intros H1 H2. apply Forall2_app; [exact H1|]. constructor; [exact H2|].
  constructor.
Qed.

Ltac rows_step varName W :=
  match goal with
  | H : Rows _ _ _ |- Rows _ _ _ =>
      destruct H as [HA HD]; split; cbn; try assumption;
      apply Forall2_snoc; try assumption;
      exists varName; split; [exact W | auto]
  end.

Lemma classify3_rows {engine : RegexpEngine} (spares : SparesT)
  (rules : V3_2.ClassificationT) (varName varType : string)
  (st : Process V3_2.Config) :
  nonEmpty varName && allOf isWord varName = true ->
  let RA := AlignedRow (Sprintf_s_paren_s (AI spares))
              (Sprintf_s_paren_s (AO spares)) false in
  let RD := AlignedRow (Sprintf_s_paren_s (DI spares))
              (Sprintf_s_paren_s (DO spares)) false in
  Rows RA RD st -> Rows RA RD (V3_2.classify spares rules varName varType st).
Proof.
  intros W RA RD H. unfold V3_2.classify.
  repeat match goal with
         | |- context [if ?b then _ else _] => destruct b
         end; try exact H; rows_step varName W.
Qed.

Lemma classify2_rows (spares : SparesT) (varName varType : string)
  (st : Process V2_2.Config) :
  nonEmpty varName && allOf isWord varName = true ->
  let RA := AlignedRow (fun _ => AI spares) (fun _ => AO spares) true in
  let RD := AlignedRow (fun _ => DI spares) (fun _ => DO spares) false in
  Rows RA RD st -> Rows RA RD (V2_2.classify spares varName varType st).
Proof.
  intros W RA RD H. unfold V2_2.classify.
  repeat match goal with
         | |- context [if ?b then _ else _] => destruct b
         end; try exact H; rows_step varName W.
Qed.

Lemma scanLoop3_rows {engine : RegexpEngine} (spares : SparesT)
  (rules : V3_2.ClassificationT) (lines : list string)
  (st : Process V3_2.Config) :
  let RA := AlignedRow (Sprintf_s_paren_s (AI spares))
              (Sprintf_s_paren_s (AO spares)) false in
  let RD := AlignedRow (Sprintf_s_paren_s (DI spares))
              (Sprintf_s_paren_s (DO spares)) false in
  Rows RA RD st -> Rows RA RD (V3_2.scanLoop spares rules lines st).
Proof.
  intros RA RD. revert st.
  induction lines as [|text lines IH]; intros st H; simpl; [exact H|].
  apply IH. unfold V3_2.scanLine.
  destruct (negb (HasPrefix (TrimSpace text) "SIG=")); [exact H|].
  destruct (FindStringSubmatch (TrimSpace text)) as [[n t]|] eqn:F;
    [|exact H].
  apply classify3_rows; [|exact H].
  exact (FindStringSubmatch_name _ F).
Qed.

Lemma scanLoop2_rows (spares : SparesT) (lines : list string)
  (st : Process V2_2.Config) :
  let RA := AlignedRow (fun _ => AI spares) (fun _ => AO spares) true in
  let RD := AlignedRow (fun _ => DI spares) (fun _ => DO spares) false in
  Rows RA RD st -> Rows RA RD (V2_2.scanLoop spares lines st).
Proof.
  intros RA RD. revert st.
  induction lines as [|text lines IH]; intros st H; simpl; [exact H|].
  apply IH. unfold V2_2.scanLine.
  destruct (negb (HasPrefix (TrimSpace text) "SIG=")); [exact H|].
  destruct (FindStringSubmatch (TrimSpace text)) as [[n t]|] eqn:F;
    [|exact H].
  apply classify2_rows; [|exact H].
  exact (FindStringSubmatch_name _ F).
Qed.

(** X6 — index alignment in the regex iteration.  After
    [processSigFile], the entries of AI and AO at the same index stem from
    the same point, and so do those of DI and DO: one is the reference
    [@GV.<name>] and the other the spare of its list annotated with the
    same name, [<spare>(<name>)]; the name is a non-empty run of word
    characters. *)
Theorem X6_rows_aligned_regex_iteration :
  forall (engine : RegexpEngine) (fs : FileSystem) (path : string)
         (file : ScannedFile) (st : Process V3_2.Config),
    os_Open fs path = inl file ->
    let spares := V3_2.Spares (V3_2.App (GlobalConfig st)) in
    let st' := fst (V3_2.processSigFile fs path st) in
    Forall2
      (AlignedRow (Sprintf_s_paren_s (AI spares))
         (Sprintf_s_paren_s (AO spares)) false)
      (ListAI st') (ListAO st')
    /\ Forall2
         (AlignedRow (Sprintf_s_paren_s (DI spares))
            (Sprintf_s_paren_s (DO spares)) false)
         (ListDI st') (ListDO st').
Proof.
  intros engine fs path file st Hopen spares st'. subst st'.
  unfold V3_2.processSigFile. rewrite Hopen. cbn [fst].
  apply (scanLoop3_rows spares). split; constructor.
Qed.

Lemma X6_rows_aligned_regex_iteration_witness :
  os_Open (fileOf sampleLines) "NODE.SIG" = inl (mkScanned sampleLines None)
  /\ Forall2
       (AlignedRow (Sprintf_s_paren_s "SPARE_AI")
          (Sprintf_s_paren_s "SPARE_AO") false)
       (ListAI
          (fst (@V3_2.processSigFile literalEngine (fileOf sampleLines)
                  "NODE.SIG" (leftover (sampleConfig3 ["LIT"] ["_CMD"])))))
       (ListAO
          (fst (@V3_2.processSigFile literalEngine (fileOf sampleLines)
                  "NODE.SIG" (leftover (sampleConfig3 ["LIT"] ["_CMD"]))))).
Proof.
  split; [reflexivity|].
  exact (proj1
           (@X6_rows_aligned_regex_iteration literalEngine
              (fileOf sampleLines) "NODE.SIG" (mkScanned sampleLines None)
              (leftover (sampleConfig3 ["LIT"] ["_CMD"])) eq_refl)).
Defined.

(** X7 — index alignment in the earlier iteration.  After
    [processSigFile], the entries of DI and DO at the same index are the
    reference of a point and the bare spare of the other list; the entries
    of AI and AO at the same index are the reference of a point and the
    bare spare of the other list, or twice the reference of the same
    point. *)
Theorem X7_rows_aligned_earlier_iteration :
  forall (fs : FileSystem) (path : string) (file : ScannedFile)
         (st : Process V2_2.Config),
    os_Open fs path = inl file ->
    let spares := V2_2.Spares (V2_2.App (GlobalConfig st)) in
    let st' := fst (V2_2.processSigFile fs path st) in
    Forall2 (AlignedRow (fun _ => AI spares) (fun _ => AO spares) true)
      (ListAI st') (ListAO st')
    /\ Forall2 (AlignedRow (fun _ => DI spares) (fun _ => DO spares) false)
         (ListDI st') (ListDO st').
Proof.
  intros fs path file st Hopen spares st'. subst st'.
  unfold V2_2.processSigFile. rewrite Hopen. cbn [fst].
  apply (scanLoop2_rows spares). split; constructor.
Qed.

Lemma X7_rows_aligned_earlier_iteration_witness :
  os_Open (fileOf sampleLines) "NODE.SIG" = inl (mkScanned sampleLines None)
  /\ Forall2 (AlignedRow (fun _ => "SPARE_DI") (fun _ => "SPARE_DO") false)
       (ListDI
          (fst (V2_2.processSigFile (fileOf sampleLines) "NODE.SIG"
                  (leftover sampleConfig2))))
       (ListDO
          (fst (V2_2.processSigFile (fileOf sampleLines) "NODE.SIG"
                  (leftover sampleConfig2)))).
Proof.
  split; [reflexivity|].
  exact (proj2
           (@X7_rows_aligned_earlier_iteration (fileOf sampleLines)
              "NODE.SIG" (mkScanned sampleLines None)
              (leftover sampleConfig2) eq_refl)).
Defined.


(** ** Entries and lines of the list file *)

Lemma allOf_append (p : ascii -> bool) (a b : string) :
  allOf p (a ++ b) = allOf p a && allOf p b.
Proof.
  induction a as [|c a IH]; simpl; [reflexivity|].
  now rewrite IH, andb_assoc.
Qed.

Lemma allOf_impl (p q : ascii -> bool) (s : string) :
  (forall c, p c = true -> q c = true) ->
  allOf p s = true -> allOf q s = true.
Proof.
  intros I. induction s as [|c s IH]; simpl; [reflexivity|].
  intros H. apply andb_true_iff in H as [Hc H].
  now rewrite (I c Hc), (IH H).
Qed.

Lemma word_not_newline (c : ascii) :
  isWord c = true -> negb (byteIs c 10) = true.
Proof.
  destruct c as [[] [] [] [] [] [] [] []]; vm_compute; congruence.
Qed.

Lemma nonEmpty_append_r (a b : string) :
  nonEmpty b = true -> nonEmpty (a ++ b) = true.
Proof.
  unfold nonEmpty. rewrite length_append.
  destruct b; simpl; [discriminate|]. intros _.
  apply negb_true_iff, Nat.eqb_neq. lia.
Qed.

Lemma Forall2_In_l {A B} (R : A -> B -> Prop) (l1 : list A) (l2 : list B)
  (a : A) :
  Forall2 R l1 l2 -> In a l1 -> exists b, R a b.
Proof.
  induction 1 as [|x y l1 l2 Hxy _ IH]; intros I; [destruct I|].
  destruct I as [->|I]; [eauto | auto].
Qed.

Lemma Forall2_In_r {A B} (R : A -> B -> Prop) (l1 : list A) (l2 : list B)
  (b : B) :
  Forall2 R l1 l2 -> In b l2 -> exists a, R a b.
Proof.
  induction 1 as [|x y l1 l2 Hxy _ IH]; intros I; [destruct I|].
  destruct I as [->|I]; [eauto | auto].
Qed.

(** The entries of a row are single, non-empty lines when the spares
    are. *)
Lemma AlignedRow_entries (spareIn spareOut : string -> string)
  (both : bool) (i o : string) :
  (forall n, nonEmpty (spareIn n) = true) ->
  (forall n, nonEmpty (spareOut n) = true) ->
  (forall n, oneLine n = true -> oneLine (spareIn n) = true) ->
  (forall n, oneLine n = true -> oneLine (spareOut n) = true) ->
  AlignedRow spareIn spareOut both i o ->
  (nonEmpty i = true /\ oneLine i = true)
  /\ (nonEmpty o = true /\ oneLine o = true).
Proof.
  intros NI NO LI LO (n & W & H).
  apply andb_true_iff in W as [Wn Ww].
  assert (Ln : oneLine n = true)
    by (exact (allOf_impl _ _ n word_not_newline Ww)).
  assert (C : nonEmpty (canonical n) = true /\ oneLine (canonical n) = true).
  { split; [reflexivity|]. unfold canonical, oneLine.
    rewrite allOf_append. exact Ln. }
  destruct H as [[-> ->]|[[-> ->]|(_ & -> & ->)]]; auto.
Qed.

Lemma annotated_nonEmpty (spare n : string) :
  nonEmpty (Sprintf_s_paren_s spare n) = true.
Proof.
  unfold Sprintf_s_paren_s. apply nonEmpty_append_r. reflexivity.
Qed.

Lemma annotated_oneLine (spare n : string) :
  oneLine spare = true -> oneLine n = true ->
  oneLine (Sprintf_s_paren_s spare n) = true.
Proof.
  unfold Sprintf_s_paren_s, oneLine. intros Hs Hn.
  rewrite !allOf_append, Hs, Hn. reflexivity.
Qed.

Lemma scanLoop3_entry {engine : RegexpEngine} (spares : SparesT)
  (rules : V3_2.ClassificationT) (lines : list string)
  (st : Process V3_2.Config) (c : Category) (entry : string) :
  spareLines spares = true ->
  In entry (listOf c (V3_2.scanLoop spares rules lines (resetLists st))) ->
  nonEmpty entry = true /\ oneLine entry = true.
Proof.
  intros L I. unfold spareLines in L.
  repeat (apply andb_true_iff in L as [L ?]).
  destruct (@scanLoop3_rows engine spares rules lines (resetLists st))
    as [RA RD]; [split; constructor|].
  destruct c; cbn [listOf] in I;
    [ destruct (@Forall2_In_l _ _ _ _ _ entry RA I) as [o R]
    | destruct (@Forall2_In_r _ _ _ _ _ entry RA I) as [o R]
    | destruct (@Forall2_In_l _ _ _ _ _ entry RD I) as [o R]
    | destruct (@Forall2_In_r _ _ _ _ _ entry RD I) as [o R] ];
    apply AlignedRow_entries in R;
    try (intros; apply annotated_nonEmpty);
    try (intros; apply annotated_oneLine; assumption);
    tauto.
Qed.

Lemma scanLoop2_entry (spares : SparesT) (lines : list string)
  (st : Process V2_2.Config) (c : Category) (entry : string) :
  spareLines spares = true ->
  spareTexts spares = true ->
  In entry (listOf c (V2_2.scanLoop spares lines (resetLists st))) ->
  nonEmpty entry = true /\ oneLine entry = true.
Proof.
  intros L T I. unfold spareLines in L. unfold spareTexts in T.
  repeat (apply andb_true_iff in L as [L ?]).
  repeat (apply andb_true_iff in T as [T ?]).
  destruct (@scanLoop2_rows spares lines (resetLists st))
    as [RA RD]; [split; constructor|].
  destruct c; cbn [listOf] in I;
    [ destruct (@Forall2_In_l _ _ _ _ _ entry RA I) as [o R]
    | destruct (@Forall2_In_r _ _ _ _ _ entry RA I) as [o R]
    | destruct (@Forall2_In_l _ _ _ _ _ entry RD I) as [o R]
    | destruct (@Forall2_In_r _ _ _ _ _ entry RD I) as [o R] ];
    apply AlignedRow_entries in R;
    try (intros; assumption);
    tauto.
Qed.

(** X8 — every entry is one non-empty line.  When the four configured
    spares hold no new-line character (and, for the earlier iteration,
    are not empty), every entry that [processSigFile] leaves in any of the
    four lists is a non-empty text without new-line character: it takes
    exactly one line of the list file and cannot be taken for the blank
    line that ends a section. *)
Theorem X8_entries_are_single_lines :
  forall (engine : RegexpEngine) (fs : FileSystem) (path : string)
         (file : ScannedFile)
         (st3 : Process V3_2.Config) (st2 : Process V2_2.Config)
         (c : Category) (entry : string),
    os_Open fs path = inl file ->
    spareLines (V3_2.Spares (V3_2.App (GlobalConfig st3))) = true ->
    spareLines (V2_2.Spares (V2_2.App (GlobalConfig st2))) = true ->
    spareTexts (V2_2.Spares (V2_2.App (GlobalConfig st2))) = true ->
    (In entry (listOf c (fst (V3_2.processSigFile fs path st3))) ->
     nonEmpty entry = true /\ oneLine entry = true)
    /\ (In entry (listOf c (fst (V2_2.processSigFile fs path st2))) ->
        nonEmpty entry = true /\ oneLine entry = true).
Proof.
  intros engine fs path file st3 st2 c entry Hopen L3 L2 T2.
  unfold V3_2.processSigFile, V2_2.processSigFile.
  rewrite Hopen. cbn [fst]. split; intros I.
  - eapply scanLoop3_entry; [exact L3 | exact I].
  - eapply scanLoop2_entry; [exact L2 | exact T2 | exact I].
Qed.

Lemma X8_entries_are_single_lines_witness :
  os_Open (fileOf sampleLines) "NODE.SIG" = inl (mkScanned sampleLines None)
  /\ spareLines sampleSpares = true
  /\ spareTexts sampleSpares = true
  /\ nonEmpty "SPARE_AO(FT041_H_H)" = true
  /\ oneLine "SPARE_AO(FT041_H_H)" = true.
Proof.
  split; [reflexivity|]. split; [reflexivity|]. split; [reflexivity|].
  apply (proj1
           (@X8_entries_are_single_lines literalEngine (fileOf sampleLines)
              "NODE.SIG" (mkScanned sampleLines None)
              (leftover (sampleConfig3 ["LIT"] ["_CMD"]))
              (leftover sampleConfig2) CatAO "SPARE_AO(FT041_H_H)"
              eq_refl eq_refl eq_refl eq_refl)).
  simpl. auto.
Defined.

Lemma linesOf_line (l rest : string) :
  oneLine l = true -> linesOf (l ++ nl ++ rest)%string = l :: linesOf rest.
Proof.
  unfold oneLine. induction l as [|c l IH]; intros H.
  - reflexivity.
  - simpl in H. apply andb_true_iff in H as [Hc H].
    apply negb_true_iff in Hc.
    cbn [append linesOf]. rewrite Hc, (IH H). reflexivity.
Qed.

Lemma linesOf_items (items : list string) (rest : string) :
  Forall (fun e => oneLine e = true) items ->
  linesOf (String.concat "" (map (fun item => item ++ nl) items)
           ++ rest)%string
  = items ++ linesOf rest.
Proof.
  induction 1 as [|e items He _ IH]; [reflexivity|].
  cbn [map]. rewrite concat_cons, !append_assoc.
  rewrite (@linesOf_line e _ He). simpl. now rewrite IH.
Qed.

Lemma linesOf_section (code title : string) (items : list string)
  (rest : string) :
  oneLine ("*LIST " ++ code ++ "   '" ++ title ++ "'")%string = true ->
  Forall (fun e => oneLine e = true) items ->
  linesOf (sectionText code title items ++ rest)%string
  = ("*LIST " ++ code ++ "   '" ++ title ++ "'")%string
      :: items ++ EmptyString :: linesOf rest.
Proof.
  intros Hh Hi. unfold sectionText.
  replace (("*LIST " ++ code ++ "   '" ++ title ++ "'" ++ nl
            ++ String.concat "" (map (fun item => item ++ nl) items) ++ nl)
           ++ rest)%string
    with (("*LIST " ++ code ++ "   '" ++ title ++ "'") ++ nl
          ++ (String.concat "" (map (fun item => item ++ nl) items)
              ++ (nl ++ rest)))%string
    by (rewrite !append_assoc; simpl; rewrite ?append_assoc; reflexivity).
  rewrite (@linesOf_line _ _ Hh), (@linesOf_items items _ Hi). reflexivity.
Qed.

(** Four sections written one after the other. *)
Lemma linesOf_written (c1 t1 c2 t2 c3 t3 c4 t4 : string)
  (i1 i2 i3 i4 : list string) :
  oneLine ("*LIST " ++ c1 ++ "   '" ++ t1 ++ "'")%string = true ->
  oneLine ("*LIST " ++ c2 ++ "   '" ++ t2 ++ "'")%string = true ->
  oneLine ("*LIST " ++ c3 ++ "   '" ++ t3 ++ "'")%string = true ->
  oneLine ("*LIST " ++ c4 ++ "   '" ++ t4 ++ "'")%string = true ->
  Forall (fun e => oneLine e = true) i1 ->
  Forall (fun e => oneLine e = true) i2 ->
  Forall (fun e => oneLine e = true) i3 ->
  Forall (fun e => oneLine e = true) i4 ->
  linesOf (write c4 t4 i4 (write c3 t3 i3 (write c2 t2 i2
                                             (write c1 t1 i1 EmptyString))))
  = ("*LIST " ++ c1 ++ "   '" ++ t1 ++ "'")%string :: i1 ++ EmptyString
      :: ("*LIST " ++ c2 ++ "   '" ++ t2 ++ "'")%string :: i2 ++ EmptyString
      :: ("*LIST " ++ c3 ++ "   '" ++ t3 ++ "'")%string :: i3 ++ EmptyString
      :: ("*LIST " ++ c4 ++ "   '" ++ t4 ++ "'")%string :: i4
      ++ [EmptyString].
Proof.
  intros H1 H2 H3 H4 F1 F2 F3 F4.
  rewrite !write_section.
  change (EmptyString ++ sectionText c1 t1 i1)%string
    with (sectionText c1 t1 i1).
  rewrite <- (append_empty_r (sectionText c4 t4 i4)).
  rewrite !append_assoc.
  rewrite (@linesOf_section c1 t1 i1 _ H1 F1).
  rewrite (@linesOf_section c2 t2 i2 _ H2 F2).
  rewrite (@linesOf_section c3 t3 i3 _ H3 F3).
  rewrite (@linesOf_section c4 t4 i4 _ H4 F4).
  reflexivity.
Qed.

(** X9 — the lines of the list file.  In each iteration on its own:
    when no entry of the four lists holds a new-line character and
    [generateListsFile] succeeds, the text it writes splits into exactly
    these lines: for each section its header, then the entries of its
    list in list order, then one empty line; nothing comes before, between
    or after the four sections.  The regex iteration writes AI, AO, DI, DO
    and the earlier iteration DO, DI, AO, AI. *)
Theorem X9_lines_of_the_list_file :
  (forall (fs : FileSystem) (st : Process V3_2.Config) (text : string),
      (forall c, Forall (fun e => oneLine e = true) (listOf c st)) ->
      V3_2.generateListsFile fs st = inl text ->
      linesOf text
      = headerAI :: ListAI st ++ EmptyString
          :: headerAO :: ListAO st ++ EmptyString
          :: headerDI :: ListDI st ++ EmptyString
          :: headerDO :: ListDO st ++ [EmptyString])
  /\ (forall (fs : FileSystem) (st : Process V2_2.Config) (text : string),
         (forall c, Forall (fun e => oneLine e = true) (listOf c st)) ->
         V2_2.generateListsFile fs st = inl text ->
         linesOf text
         = headerDO :: ListDO st ++ EmptyString
             :: headerDI :: ListDI st ++ EmptyString
             :: headerAO :: ListAO st ++ EmptyString
             :: headerAI :: ListAI st ++ [EmptyString]).
Proof.
  split; intros fs st text L G.
  - unfold V3_2.generateListsFile in G.
    destruct (os_Create fs ListFile); [discriminate|].
    destruct (file_Flush fs ListFile _) in G; [discriminate|].
    injection G as <-.
    exact (@linesOf_written
             "32761" "ENTRADAS ANALOGICAS DNP" "32762" "SALIDAS ANALOGICAS DNP"
             "32763" "ENTRADAS DIGITALES DNP" "32764" "SALIDAS DIGITALES DNP"
             (ListAI st) (ListAO st) (ListDI st) (ListDO st)
             eq_refl eq_refl eq_refl eq_refl
             (L CatAI) (L CatAO) (L CatDI) (L CatDO)).
  - unfold V2_2.generateListsFile in G.
    destruct (os_Create fs ListFile); [discriminate|].
    destruct (file_Flush fs ListFile _) in G; [discriminate|].
    injection G as <-.
    exact (@linesOf_written
             "32764" "SALIDAS DIGITALES DNP" "32763" "ENTRADAS DIGITALES DNP"
             "32762" "SALIDAS ANALOGICAS DNP" "32761" "ENTRADAS ANALOGICAS DNP"
             (ListDO st) (ListDI st) (ListAO st) (ListAI st)
             eq_refl eq_refl eq_refl eq_refl
             (L CatDO) (L CatDI) (L CatAO) (L CatAI)).
Qed.

Lemma X9_lines_of_the_list_file_witness :
  linesOf
    (match V3_2.generateListsFile (fileOf [])
             (mkProcess (sampleConfig3 [] []) ["@GV.B"] ["SPARE_AI(B)"]
                        [] [] [])
     with
     | inl text => text
     | inr _ => EmptyString
     end)
  = [headerAI; "SPARE_AI(B)"; ""; headerAO; "@GV.B"; "";
     headerDI; ""; headerDO; ""]
  /\ linesOf
       (match V2_2.generateListsFile (fileOf [])
                (mkProcess sampleConfig2 ["@GV.B"] ["SPARE_AI"] [] [] [])
        with
        | inl text => text
        | inr _ => EmptyString
        end)
     = [headerDO; ""; headerDI; ""; headerAO; "@GV.B"; "";
        headerAI; "SPARE_AI"; ""].
Proof.
  assert (L3 : forall c,
             Forall (fun e => oneLine e = true)
               (listOf c (mkProcess (sampleConfig3 [] []) ["@GV.B"]
                            ["SPARE_AI(B)"] [] [] [])))
    by (intros []; repeat constructor).
  assert (L2 : forall c,
             Forall (fun e => oneLine e = true)
               (listOf c (mkProcess sampleConfig2 ["@GV.B"] ["SPARE_AI"]
                            [] [] [])))
    by (intros []; repeat constructor).
  split.
  - exact (proj1 X9_lines_of_the_list_file (fileOf []) _ _ L3 eq_refl).
  - exact (proj2 X9_lines_of_the_list_file (fileOf []) _ _ L2 eq_refl).
Defined.

(** ** Running [processSigFile] again *)

Lemma classify2_frame (spares : SparesT) (varName varType : string)
  (st : Process V2_2.Config) :
  GlobalConfig (V2_2.classify spares varName varType st) = GlobalConfig st
  /\ LogOutput (V2_2.classify spares varName varType st) = LogOutput st.
Proof.
  unfold V2_2.classify.
  repeat match goal with
         | |- context [if ?b then _ else _] => destruct b
         end; split; reflexivity.
Qed.

Lemma scanLoop2_frame (spares : SparesT) (lines : list string)
  (st : Process V2_2.Config) :
  GlobalConfig (V2_2.scanLoop spares lines st) = GlobalConfig st
  /\ LogOutput (V2_2.scanLoop spares lines st) = LogOutput st.
Proof.
  revert st. induction lines as [|text lines IH]; intros st; simpl.
  - now split.
  - destruct (IH (V2_2.scanLine spares text st)) as [E1 E2].
    rewrite E1, E2. unfold V2_2.scanLine.
    destruct (negb (HasPrefix (TrimSpace text) "SIG=")); [now split|].
    destruct (FindStringSubmatch (TrimSpace text)) as [[n t]|];
      [apply classify2_frame | now split].
Qed.

Lemma resetLists_frame {C} (st st' : Process C) :
  GlobalConfig st' = GlobalConfig st -> LogOutput st' = LogOutput st ->
  resetLists st' = resetLists st.
Proof. unfold resetLists. now intros -> ->. Qed.

(** X10 — running [processSigFile] again.  [processSigFile] never changes
    the configuration nor the log, and running it a second time on the
    state the first run left gives the very state and error of the first
    run: entries do not accumulate from one run to the next.  This holds
    whether or not the file can be opened, in both iterations. *)
Theorem X10_second_run_changes_nothing :
  forall (engine : RegexpEngine) (fs : FileSystem) (path : string)
         (st3 : Process V3_2.Config) (st2 : Process V2_2.Config),
    let once3 := V3_2.processSigFile fs path st3 in
    let once2 := V2_2.processSigFile fs path st2 in
    V3_2.processSigFile fs path (fst once3) = once3
    /\ V2_2.processSigFile fs path (fst once2) = once2
    /\ GlobalConfig (fst once3) = GlobalConfig st3
    /\ LogOutput (fst once3) = LogOutput st3
    /\ GlobalConfig (fst once2) = GlobalConfig st2
    /\ LogOutput (fst once2) = LogOutput st2.
Proof.
  intros engine fs path st3 st2 once3 once2. subst once3 once2.
  unfold V3_2.processSigFile, V2_2.processSigFile.
  destruct (os_Open fs path) as [file|err] eqn:Hopen; cbn [fst];
    rewrite ?Hopen; [|repeat split].
  set (sp3 := V3_2.Spares (V3_2.App (GlobalConfig (resetLists st3)))).
  set (rl3 := V3_2.Classification (V3_2.App (GlobalConfig (resetLists st3)))).
  set (sp2 := V2_2.Spares (V2_2.App (GlobalConfig (resetLists st2)))).
  destruct (scanLoop3_frame sp3 rl3 (Lines file) (resetLists st3))
    as [G3 L3].
  destruct (scanLoop2_frame sp2 (Lines file) (resetLists st2)) as [G2 L2].
  repeat apply conj; try assumption.
  - rewrite (@resetLists_frame _ (resetLists st3)
               (V3_2.scanLoop sp3 rl3 (Lines file) (resetLists st3)) G3 L3).
    reflexivity.
  - rewrite (@resetLists_frame _ (resetLists st2)
               (V2_2.scanLoop sp2 (Lines file) (resetLists st2)) G2 L2).
    reflexivity.
Qed.


(** ** The two iterations compared *)

Lemma recognised2_cases (varType : string) :
  recognised2 varType = true ->
  varType = "AAR" \/ varType = "AA" \/ varType = "LA"
  \/ varType = "AO" \/ varType = "DO".
Proof.
  unfold recognised2. intros H.
  repeat (apply orb_true_iff in H as [H|H]);
    apply String.eqb_eq in H; auto 6.
Qed.

(** X11 — the tags of the earlier iteration in the regex iteration.
    Every type tag the earlier iteration classifies (AAR, AA, LA, AO, DO)
    is classified by the regex iteration too, into the same family,
    whatever the patterns are; for the explicit output tags AO and DO the
    two iterations choose the same list. *)
Theorem X11_tags_carried_over :
  forall (engine : RegexpEngine) (rules : V3_2.ClassificationT)
         (varName varType : string) (c2 : Category),
    direction2 varName varType = Some c2 ->
    exists c3,
      direction3 rules varName varType = Some c3
      /\ isAnalog c3 = isAnalog c2
      /\ (varType = "AO" \/ varType = "DO" -> c3 = c2).
Proof.
  intros engine rules n t c2 H.
  assert (R : recognised2 t = true).
  { apply direction2_recognised with (varName := n). congruence. }
  destruct (recognised2_cases t R) as [-> | [-> | [-> | [-> | ->]]]];
    unfold direction2 in H; unfold direction3; simpl in *;
    repeat match goal with
           | |- context [if ?b then _ else _] => destruct b
           | H : context [if ?b then _ else _] |- _ => destruct b
           end;
    inversion H; subst; eexists; repeat split;
    try (intros [E|E]; discriminate E).
Qed.

Lemma X11_tags_carried_over_witness :
  direction2 "TK1_SP" "AAR" = Some CatAO
  /\ exists c3,
       @direction3 literalEngine (V3_2.mkClassification [] []) "TK1_SP" "AAR"
       = Some c3
       /\ isAnalog c3 = isAnalog CatAO
       /\ ("AAR" = "AO" \/ "AAR" = "DO" -> c3 = CatAO).
Proof.
  split; [reflexivity|].
  exact (@X11_tags_carried_over literalEngine (V3_2.mkClassification [] [])
           "TK1_SP" "AAR" CatAO eq_refl).
Defined.

Lemma literal_match {engine : RegexpEngine} (p name : string) :
  literalFor p -> fst (regexp_MatchString p name) = Contains name p.
Proof.
  intros (re & C & M). unfold regexp_MatchString. rewrite C. apply M.
Qed.

(** X12 — the digital markers as patterns.  With the six markers of the
    earlier iteration as the digital pattern list, and an engine that
    compiles each of them to the search for its text, the regex iteration
    decides the direction of every point tagged LA exactly as the earlier
    iteration does. *)
Theorem X12_digital_markers_as_patterns :
  forall (engine : RegexpEngine) (analog : list string) (varName : string),
    (forall p, In p digitalMarkers -> literalFor p) ->
    V3_2.isMatchRegex varName digitalMarkers = digitalOutput2 varName
    /\ direction3 (V3_2.mkClassification analog digitalMarkers) varName "LA"
       = direction2 varName "LA".
Proof.
  intros engine analog n L.
  assert (M : V3_2.isMatchRegex n digitalMarkers = digitalOutput2 n).
  { rewrite isMatchRegex_existsb. unfold digitalMarkers, digitalOutput2.
    cbn [existsb].
    rewrite !literal_match by (apply L; unfold digitalMarkers; simpl; auto 8).
    rewrite orb_false_r, !orb_assoc. reflexivity. }
  split; [exact M|].
  unfold direction3, direction2. cbn [V3_2.DigitalRegex].
  change (Contains "LA" "AA" || Contains "LA" "REAL") with false.
  change (Contains "LA" "LA" || Contains "LA" "BOOL") with true.
  change (analogTag2 "LA") with false.
  change ("LA" =? "LA")%string with true.
  cbv iota. now rewrite M.
Qed.

Lemma X12_digital_markers_as_patterns_witness :
  (forall p, In p digitalMarkers -> @literalFor literalEngine p)
  /\ @direction3 literalEngine (V3_2.mkClassification [] digitalMarkers)
       "PUMP_RESET" "LA"
     = direction2 "PUMP_RESET" "LA".
Proof.
  assert (L : forall p, In p digitalMarkers -> @literalFor literalEngine p).
  { intros p I. exists p.
    unfold digitalMarkers in I. simpl in I.
    repeat (destruct I as [<- | I]; [split; [reflexivity | reflexivity]|]).
    destruct I. }
  split; [exact L|].
  exact (proj2
           (@X12_digital_markers_as_patterns literalEngine [] "PUMP_RESET"
              L)).
Defined.

(** ** Counting the rows *)

Lemma placed_length {C} (c d : Category) (x y : string)
  (st st' : Process C) :
  PlacedIn d x y st st' ->
  length (listOf c st')
  = length (listOf c st)
    + (if Bool.eqb (isAnalog d) (isAnalog c) then 1 else 0).
Proof.
  intros (H1 & H2 & H3).
  destruct d;
    [ pose proof (H3 CatDI ltac:(discriminate) ltac:(discriminate)) as E1;
      pose proof (H3 CatDO ltac:(discriminate) ltac:(discriminate)) as E2
    | pose proof (H3 CatDI ltac:(discriminate) ltac:(discriminate)) as E1;
      pose proof (H3 CatDO ltac:(discriminate) ltac:(discriminate)) as E2
    | pose proof (H3 CatAI ltac:(discriminate) ltac:(discriminate)) as E1;
      pose proof (H3 CatAO ltac:(discriminate) ltac:(discriminate)) as E2
    | pose proof (H3 CatAI ltac:(discriminate) ltac:(discriminate)) as E1;
      pose proof (H3 CatAO ltac:(discriminate) ltac:(discriminate)) as E2 ];
    destruct c; cbn [listOf paired isAnalog Bool.eqb] in *;
    rewrite ?H1, ?H2, ?E1, ?E2, ?length_app; simpl; lia.
Qed.

Lemma count_step (family : string -> option bool) (analog : bool)
  (text : string) (lines : list string) :
  countFamily family analog (text :: lines)
  = (match family text with
     | Some a => if Bool.eqb a analog then 1 else 0
     | None => 0
     end) + countFamily family analog lines.
Proof.
  unfold countFamily. simpl.
  destruct (family text) as [a|]; [|reflexivity].
  destruct (Bool.eqb a analog); reflexivity.
Qed.

Lemma scanLine3_count {engine : RegexpEngine} (spares : SparesT)
  (rules : V3_2.ClassificationT) (c : Category) (text : string)
  (st : Process V3_2.Config) :
  length (listOf c (V3_2.scanLine spares rules text st))
  = length (listOf c st)
    + match family3 rules text with
      | Some a => if Bool.eqb a (isAnalog c) then 1 else 0
      | None => 0
      end.
Proof.
  unfold family3. destruct (extract text) as [[n t]|] eqn:E.
  - rewrite (scanLine3_extract spares rules text st E).
    pose proof (classify3_spec spares rules n t st) as S.
    destruct (direction3 rules n t) as [d|]; simpl.
    + apply (placed_length c S).
    + rewrite S. lia.
  - unfold extract, isDeclaration in E. unfold V3_2.scanLine.
    destruct (HasPrefix (TrimSpace text) "SIG="); simpl; [|lia].
    rewrite E. lia.
Qed.

Lemma scanLine2_count (spares : SparesT) (c : Category) (text : string)
  (st : Process V2_2.Config) :
  length (listOf c (V2_2.scanLine spares text st))
  = length (listOf c st)
    + match family2 text with
      | Some a => if Bool.eqb a (isAnalog c) then 1 else 0
      | None => 0
      end.
Proof.
  unfold family2. destruct (extract text) as [[n t]|] eqn:E.
  - rewrite (scanLine2_extract spares text st E).
    pose proof (classify2_spec spares n t st) as S.
    destruct (direction2 n t) as [d|]; simpl.
    + apply (placed_length c S).
    + rewrite S. lia.
  - unfold extract, isDeclaration in E. unfold V2_2.scanLine.
    destruct (HasPrefix (TrimSpace text) "SIG="); simpl; [|lia].
    rewrite E. lia.
Qed.

Lemma scanLoop3_count {engine : RegexpEngine} (spares : SparesT)
  (rules : V3_2.ClassificationT) (c : Category) (lines : list string)
  (st : Process V3_2.Config) :
  length (listOf c (V3_2.scanLoop spares rules lines st))
  = length (listOf c st) + countFamily (family3 rules) (isAnalog c) lines.
Proof.
  revert st. induction lines as [|text lines IH]; intros st.
  - simpl. unfold countFamily. simpl. lia.
  - change (V3_2.scanLoop spares rules (text :: lines) st)
      with (V3_2.scanLoop spares rules lines
              (V3_2.scanLine spares rules text st)).
    rewrite IH, scanLine3_count, count_step. lia.
Qed.

Lemma scanLoop2_count (spares : SparesT) (c : Category)
  (lines : list string) (st : Process V2_2.Config) :
  length (listOf c (V2_2.scanLoop spares lines st))
  = length (listOf c st) + countFamily family2 (isAnalog c) lines.
Proof.
  revert st. induction lines as [|text lines IH]; intros st.
  - simpl. unfold countFamily. simpl. lia.
  - change (V2_2.scanLoop spares (text :: lines) st)
      with (V2_2.scanLoop spares lines (V2_2.scanLine spares text st)).
    rewrite IH, scanLine2_count, count_step. lia.
Qed.

(** X13 — the size of the lists.  After [processSigFile], each of AI and
    AO has as many entries as the file has lines classified into the
    analog family, and each of DI and DO as many as it has lines
    classified into the digital family; no list is longer than the
    file. *)
Theorem X13_rows_counted :
  forall (engine : RegexpEngine) (fs : FileSystem) (path : string)
         (file : ScannedFile) (c : Category)
         (st3 : Process V3_2.Config) (st2 : Process V2_2.Config),
    os_Open fs path = inl file ->
    let rules := V3_2.Classification (V3_2.App (GlobalConfig st3)) in
    let st3' := fst (V3_2.processSigFile fs path st3) in
    let st2' := fst (V2_2.processSigFile fs path st2) in
    length (listOf c st3')
    = countFamily (family3 rules) (isAnalog c) (Lines file)
    /\ length (listOf c st2')
       = countFamily family2 (isAnalog c) (Lines file)
    /\ length (ListAI st3') + length (ListDI st3') <= length (Lines file)
    /\ length (ListAI st2') + length (ListDI st2') <= length (Lines file).
Proof.
  intros engine fs path file c st3 st2 Hopen rules st3' st2'.
  subst st3' st2'. unfold V3_2.processSigFile, V2_2.processSigFile.
  rewrite Hopen. cbn [fst].
  assert (B : forall family,
             countFamily family true (Lines file)
             + countFamily family false (Lines file)
             <= length (Lines file)).
  { intros family. induction (Lines file) as [|text lines IH].
    - unfold countFamily. simpl. lia.
    - rewrite !count_step. simpl length.
      destruct (family text) as [[]|]; simpl; lia. }
  repeat apply conj.
  - rewrite scanLoop3_count. destruct c; reflexivity.
  - rewrite scanLoop2_count. destruct c; reflexivity.
  - change (ListAI ?s) with (listOf CatAI s).
    change (ListDI ?s) with (listOf CatDI s).
    rewrite !scanLoop3_count. simpl. apply B.
  - change (ListAI ?s) with (listOf CatAI s).
    change (ListDI ?s) with (listOf CatDI s).
    rewrite !scanLoop2_count. simpl. apply B.
Qed.

Lemma X13_rows_counted_witness :
  os_Open (fileOf sampleLines) "NODE.SIG" = inl (mkScanned sampleLines None)
  /\ length
       (ListAO
          (fst (@V3_2.processSigFile literalEngine (fileOf sampleLines)
                  "NODE.SIG" (leftover (sampleConfig3 ["LIT"] ["_CMD"])))))
     = @countFamily
         (@family3 literalEngine (V3_2.mkClassification ["LIT"] ["_CMD"]))
         true sampleLines.
Proof.
  split; [reflexivity|].
  exact (proj1
           (@X13_rows_counted literalEngine (fileOf sampleLines) "NODE.SIG"
              (mkScanned sampleLines None) CatAO
              (leftover (sampleConfig3 ["LIT"] ["_CMD"]))
              (leftover sampleConfig2) eq_refl)).
Defined.


(** ** The external tool *)





(** ** A whole run *)

Lemma generate3_lines (fs : FileSystem) (st : Process V3_2.Config)
  (text : string) :
  (forall c, Forall (fun e => oneLine e = true) (listOf c st)) ->
  V3_2.generateListsFile fs st = inl text ->
  linesOf text
  = headerAI :: ListAI st ++ EmptyString
      :: headerAO :: ListAO st ++ EmptyString
      :: headerDI :: ListDI st ++ EmptyString
      :: headerDO :: ListDO st ++ [EmptyString].
Proof.
  intros L G. unfold V3_2.generateListsFile in G.
  destruct (os_Create fs ListFile); [discriminate|].
  destruct (file_Flush fs ListFile _) in G; [discriminate|].
  injection G as <-.
  exact (@linesOf_written
           "32761" "ENTRADAS ANALOGICAS DNP" "32762" "SALIDAS ANALOGICAS DNP"
           "32763" "ENTRADAS DIGITALES DNP" "32764" "SALIDAS DIGITALES DNP"
           (ListAI st) (ListAO st) (ListDI st) (ListDO st)
           eq_refl eq_refl eq_refl eq_refl
           (L CatAI) (L CatAO) (L CatDI) (L CatDO)).
Qed.

(** X15 — a successful run, end to end.  When the part of [main] from
    the processing of the signal file on ends with the list file written,
    the signal file was opened and scanned without error, and, provided
    the configured spares hold no new-line character, the list file
    consists of the four headers, the four lists the run left, and four
    empty lines: 8 lines plus two for every line of the signal file that
    was classified. *)
Theorem X15_written_file_end_to_end :
  forall (engine : RegexpEngine) (fs : FileSystem) (sigFile base : string)
         (st : Process V3_2.Config) (text : string),
    spareLines (V3_2.Spares (V3_2.App (GlobalConfig st))) = true ->
    snd (V3_2.mainProcess fs sigFile base st) = V3_2.Written text ->
    let st' := fst (V3_2.mainProcess fs sigFile base st) in
    let rules := V3_2.Classification (V3_2.App (GlobalConfig st)) in
    exists file,
      os_Open fs sigFile = inl file
      /\ ScanErr file = None
      /\ linesOf text
         = headerAI :: ListAI st' ++ EmptyString
             :: headerAO :: ListAO st' ++ EmptyString
             :: headerDI :: ListDI st' ++ EmptyString
             :: headerDO :: ListDO st' ++ [EmptyString]
      /\ length (linesOf text)
         = 8 + 2 * (countFamily (family3 rules) true (Lines file)
                    + countFamily (family3 rules) false (Lines file)).
Proof.
  intros engine fs sigFile base st text SL W st' rules. subst st'.
  unfold V3_2.mainProcess, V3_2.processSigFile in *.
  destruct (os_Open fs sigFile) as [file|e] eqn:Hopen;
    [|simpl in W; discriminate].
  destruct (ScanErr file) as [e|] eqn:Hscan; [simpl in W; discriminate|].
  cbv beta iota zeta in *.
  set (st0 := logLine ("Procesando: " ++ base)%string st) in *.
  set (sp := V3_2.Spares (V3_2.App (GlobalConfig (resetLists st0)))) in *.
  set (rl := V3_2.Classification (V3_2.App (GlobalConfig (resetLists st0))))
    in *.
  set (st1 := V3_2.scanLoop sp rl (Lines file) (resetLists st0)) in *.
  destruct (V3_2.generateListsFile fs (logLine "Generando __lists.ini..." st1))
    as [t|e] eqn:G; [|simpl in W; discriminate].
  cbn [fst snd] in *. injection W as ->.
  exists file. split; [reflexivity|]. split; [exact Hscan|].
  assert (L : forall c,
             Forall (fun e => oneLine e = true)
               (listOf c (logLine "Generando __lists.ini..." st1))).
  { intros c. apply Forall_forall. intros e I.
    assert (I' : In e (listOf c st1)) by (destruct c; exact I).
    exact (proj2 (@scanLoop3_entry engine sp rl (Lines file) st0 c e SL I')). }
  pose proof (@generate3_lines fs _ text L G) as E.
  split; [exact E|].
  rewrite E. cbn [ListAI ListAO ListDI ListDO logLine].
  pose proof (@scanLoop3_count engine sp rl CatAI (Lines file) (resetLists st0))
    as CA.
  pose proof (@scanLoop3_count engine sp rl CatAO (Lines file) (resetLists st0))
    as CB.
  pose proof (@scanLoop3_count engine sp rl CatDI (Lines file) (resetLists st0))
    as CC.
  pose proof (@scanLoop3_count engine sp rl CatDO (Lines file) (resetLists st0))
    as CD.
  cbn [listOf isAnalog resetLists ListAI ListAO ListDI ListDO length] in *.
  fold st1 in CA, CB, CC, CD.
  change rules with rl.
  simpl length. rewrite !length_app. simpl length. rewrite !length_app.
  simpl length. rewrite !length_app. simpl length. rewrite !length_app.
  simpl length. lia.
Qed.

Lemma X15_written_file_end_to_end_witness :
  length
    (linesOf
       (match snd (@V3_2.mainProcess literalEngine (fileOf sampleLines)
                     "NODE.SIG" "NODE.SIG"
                     (leftover (sampleConfig3 ["LIT"] ["_CMD"])))
        with
        | V3_2.Written text => text
        | V3_2.Fatal => EmptyString
        end))
  = 16.
Proof.
  destruct
    (@X15_written_file_end_to_end literalEngine (fileOf sampleLines)
       "NODE.SIG" "NODE.SIG" (leftover (sampleConfig3 ["LIT"] ["_CMD"]))
       _ eq_refl eq_refl)
    as (file & Hopen & _ & _ & H).
  injection Hopen as <-. exact H.
Defined.

(** ** Reading a row back *)

Lemma append_cancel_l (a b c : string) :
  (a ++ b)%string = (a ++ c)%string -> b = c.
Proof.
  induction a as [|x a IH]; simpl; intros H; [exact H|].
  injection H as H. exact (IH H).
Qed.

Lemma append_cancel_r1 (a b : string) (x : ascii) :
  (a ++ String x EmptyString)%string = (b ++ String x EmptyString)%string ->
  a = b.
Proof.
  revert b. induction a as [|c a IH]; intros [|d b] H; simpl in H.
  - reflexivity.
  - injection H as _ H. destruct b; discriminate H.
  - injection H as _ H. destruct a; discriminate H.
  - injection H as -> H. f_equal. exact (IH b H).
Qed.

Lemma annotated_injective (spare n n' : string) :
  Sprintf_s_paren_s spare n = Sprintf_s_paren_s spare n' -> n = n'.
Proof.
  unfold Sprintf_s_paren_s. intros H.
  apply append_cancel_l in H. simpl in H. injection H as H.
  exact (@append_cancel_r1 n n' _ H).
Qed.

(** The reference of a point with a name of word characters is never an
    annotated spare: it holds no closing parenthesis. *)
Lemma canonical_not_annotated (spare n n' : string) :
  allOf isWord n = true -> canonical n <> Sprintf_s_paren_s spare n'.
Proof.
  intros W E.
  assert (P : allOf (fun c => negb (byteIs c 41)) (canonical n) = true).
  { unfold canonical. rewrite allOf_append. simpl.
    apply (allOf_impl isWord); [|exact W].
    intros c. destruct c as [[] [] [] [] [] [] [] []]; vm_compute; congruence. }
  rewrite E in P. unfold Sprintf_s_paren_s in P.
  rewrite !allOf_append in P. simpl in P.
  rewrite !andb_false_r in P. discriminate P.
Qed.

(** X16 — a row names one point.  In the regex iteration the two entries
    of a row, a reference and an annotated spare, determine the name of
    the point they stem from: no two names of word characters fit the
    same row. *)
Theorem X16_row_names_one_point :
  forall (spareIn spareOut inEntry outEntry n n' : string),
    allOf isWord n = true ->
    allOf isWord n' = true ->
    (inEntry = canonical n /\ outEntry = Sprintf_s_paren_s spareOut n)
    \/ (outEntry = canonical n /\ inEntry = Sprintf_s_paren_s spareIn n) ->
    (inEntry = canonical n' /\ outEntry = Sprintf_s_paren_s spareOut n')
    \/ (outEntry = canonical n' /\ inEntry = Sprintf_s_paren_s spareIn n') ->
    n = n'.
Proof.
  intros spareIn spareOut i o n n' W W' [[Hi Ho]|[Ho Hi]] [[Hi' Ho']|[Ho' Hi']];
    subst.
  - exact (@annotated_injective spareOut n n' Ho').
  - exfalso. exact (@canonical_not_annotated spareIn n n' W Hi').
  - exfalso. exact (@canonical_not_annotated spareOut n n' W Ho').
  - exact (@annotated_injective spareIn n n' Hi').
Qed.

Lemma X16_row_names_one_point_witness :
  allOf isWord "PUMP2" = true
  /\ ("SPARE_AI(PUMP2)" = canonical "PUMP2"
      /\ "@GV.PUMP2" = Sprintf_s_paren_s "SPARE_AO" "PUMP2"
      \/ "@GV.PUMP2" = canonical "PUMP2"
         /\ "SPARE_AI(PUMP2)" = Sprintf_s_paren_s "SPARE_AI" "PUMP2")
  /\ "PUMP2" = "PUMP2".
Proof.
  split; [reflexivity|].
  split; [right; split; reflexivity|].
  exact (@X16_row_names_one_point "SPARE_AI" "SPARE_AO" "SPARE_AI(PUMP2)"
           "@GV.PUMP2" "PUMP2" "PUMP2" eq_refl eq_refl
           (or_intror (conj eq_refl eq_refl))
           (or_intror (conj eq_refl eq_refl))).
Defined.
